(** * notify_credentials: the management command that re-triggers the
      Credentials notification handlers

    Shallow embedding of
    [openedx/core/djangoapps/credentials/management/commands/notify_credentials.py].

    The command collects options, optionally replaces them by the ones stored
    in the [NotifyCredentialsConfig] record, optionally overrides the date
    window ([--auto]), turns the course identifiers into course keys, checks
    that some filter is present and hands one job to the task queue.

    Python objects are modelled as follows.
    - The [options] dictionary is a record with one field per argument that
      [add_arguments] declares, plus the entries of the framework's base
      parser, which the command never reads.
    - A [datetime] keeps its calendar date as the proleptic Gregorian ordinal
      ([date.toordinal]); this is the representation on which the standard
      library itself performs [datetime +/- timedelta].
    - Exceptions and [sys.exit] are results of a state-and-error monad whose
      state survives a raise, as side effects do in Python.
    - The collaborators that live outside this file are interfaces: the
      opaque-keys parser ([OpaqueKeys]), [dateutil] ([Dateutil]), [shlex] and
      the argument parser that Django builds from [add_arguments]
      ([ArgumentParsing]). *)

From Stdlib Require Import ZArith String Ascii List Bool Lia.
From Stdlib Require Import Floats.SpecFloat.
Import ListNotations.

Local Open Scope string_scope.
Local Open Scope list_scope.
Local Open Scope Z_scope.

Set Implicit Arguments.

(** ** Python values used by the command *)

(** [tzinfo] objects that can be attached to a parsed date: [pytz.UTC], and
    the ones [dateutil] produces. *)
Inductive tzinfo : Type :=
| UTC
| tzutc
| tzoffset (name : option string) (offset_seconds : Z)
| tzlocal.

Record datetime : Type := mk_datetime {
  dt_ordinal : Z;
  dt_hour : Z;
  dt_minute : Z;
  dt_second : Z;
  dt_microsecond : Z;
  dt_tzinfo : option tzinfo
}.

Record timedelta : Type := mk_timedelta {
  td_days : Z;
  td_seconds : Z;
  td_microseconds : Z
}.

(** [--delay] has [type=float] and [default=0]: argparse converts only string
    defaults, so the value is the integer [0] or a float. *)
Inductive number : Type :=
| PyInt (z : Z)
| PyFloat (f : spec_float).

Inductive Exception : Type :=
| CommandError (msg : string)
| SystemExit (code : Z)
| OverflowError (msg : string)
| ValueError (msg : string).

Inductive Result (A : Type) : Type :=
| Ok (a : A)
| Err (e : Exception).

Arguments Ok {A} a.
Arguments Err {A} e.

(** The [options] dictionary. *)
Record Options : Type := mk_options {
  dry_run : bool;
  site : option string;
  courses : option (list string);
  start_date : option datetime;
  end_date : option datetime;
  delay : number;
  page_size : Z;
  auto : bool;
  args_from_database : bool;
  verbose : bool;
  notify_programs : bool;
  user_ids : option (list string);
  (* verbosity, settings, pythonpath, traceback, ... in printed form *)
  base_options : list (string * string)
}.

Definition set_start_date (options : Options) (v : option datetime) : Options :=
  mk_options (dry_run options) (site options) (courses options) v
    (end_date options) (delay options) (page_size options) (auto options)
    (args_from_database options) (verbose options) (notify_programs options)
    (user_ids options) (base_options options).

Definition set_end_date (options : Options) (v : option datetime) : Options :=
  mk_options (dry_run options) (site options) (courses options)
    (start_date options) v (delay options) (page_size options) (auto options)
    (args_from_database options) (verbose options) (notify_programs options)
    (user_ids options) (base_options options).

(** The row of [NotifyCredentialsConfig] that [current()] returns. *)
Record NotifyCredentialsConfig : Type := mk_config {
  enabled : bool;
  arguments : string
}.

(** ** Collaborators *)

(** [opaque_keys.edx.keys.CourseKey]; [None] stands for [InvalidKeyError]. *)
Class OpaqueKeys : Type := {
  CourseKey : Type;
  from_string : string -> option CourseKey
}.

(** [dateutil.parser.parse]. *)
Class Dateutil : Type := {
  dateutil_parse : string -> Result datetime
}.

(** [shlex.split], and
    [self.create_parser('manage.py', 'notify_credentials').parse_args(argv).__dict__]. *)
Class ArgumentParsing : Type := {
  shlex_split : string -> Result (list string);
  parse_args : list string -> Result Options
}.

(** ** Truthiness *)

Definition truthy_list {A : Type} (l : list A) : bool :=
  match l with [] => false | _ :: _ => true end.

(** [None] and the empty list are falsy. *)
Definition truthy_opt_list {A : Type} (o : option (list A)) : bool :=
  match o with None => false | Some l => truthy_list l end.

(** [datetime] defines neither [__bool__] nor [__len__]: every instance is truthy. *)
Definition truthy_opt_datetime (o : option datetime) : bool :=
  match o with None => false | Some _ => true end.

(** ** datetime arithmetic *)

Definition MAXORDINAL : Z := 3652059.

(** [timedelta(days, seconds, microseconds, minutes=, hours=)] for integer
    arguments: everything is carried into normalised days, seconds and
    microseconds with [divmod]. *)
Definition timedelta_new (days hours minutes seconds microseconds : Z) : timedelta :=
  let s := seconds + 60 * minutes + 3600 * hours + microseconds / 1000000 in
  mk_timedelta (days + s / 86400) (s mod 86400) (microseconds mod 1000000).

Definition timedelta_neg (t : timedelta) : timedelta :=
  timedelta_new (- td_days t) 0 0 (- td_seconds t) (- td_microseconds t).

Definition timedelta_add (a b : timedelta) : timedelta :=
  timedelta_new (td_days a + td_days b) 0 0
    (td_seconds a + td_seconds b) (td_microseconds a + td_microseconds b).

(** [datetime.__add__(self, other)] for a [timedelta]. *)
Definition datetime_add (self : datetime) (other : timedelta) : Result datetime :=
  let delta := timedelta_new (dt_ordinal self) (dt_hour self) (dt_minute self)
                 (dt_second self) (dt_microsecond self) in
  let delta := timedelta_add delta other in
  let hour := td_seconds delta / 3600 in
  let rem := td_seconds delta mod 3600 in
  let minute := rem / 60 in
  let second := rem mod 60 in
  if (0 <? td_days delta) && (td_days delta <=? MAXORDINAL) then
    Ok (mk_datetime (td_days delta) hour minute second (td_microseconds delta)
          (dt_tzinfo self))
  else Err (OverflowError "result out of range").

(** [datetime.__sub__(self, other)] for a [timedelta]: [self + -other]. *)
Definition datetime_sub (self : datetime) (other : timedelta) : Result datetime :=
  datetime_add self (timedelta_neg other).

(** [dt.replace(minute=, second=, microsecond=)] *)
Definition replace_minute_second_microsecond (dt : datetime) (mi s us : Z) : datetime :=
  mk_datetime (dt_ordinal dt) (dt_hour dt) mi s us (dt_tzinfo dt).

(** [dt.replace(tzinfo=)] *)
Definition replace_tzinfo (dt : datetime) (tz : option tzinfo) : datetime :=
  mk_datetime (dt_ordinal dt) (dt_hour dt) (dt_minute dt) (dt_second dt)
    (dt_microsecond dt) tz.

(** A value the [datetime] constructor accepts. *)
Definition valid_datetime (dt : datetime) : Prop :=
  1 <= dt_ordinal dt <= MAXORDINAL /\
  0 <= dt_hour dt < 24 /\
  0 <= dt_minute dt < 60 /\
  0 <= dt_second dt < 60 /\
  0 <= dt_microsecond dt < 1000000.

(** Microseconds elapsed on the wall clock of [dt] since the day before
    0001-01-01; the time zone is not taken into account. *)
Definition wall_microseconds (dt : datetime) : Z :=
  (((dt_ordinal dt * 24 + dt_hour dt) * 60 + dt_minute dt) * 60 + dt_second dt)
    * 1000000 + dt_microsecond dt.

(** The length of a [timedelta] in microseconds. *)
Definition timedelta_microseconds (t : timedelta) : Z :=
  (td_days t * 86400 + td_seconds t) * 1000000 + td_microseconds t.

(** An aware datetime is one whose [tzinfo] is set. *)
Definition aware (dt : datetime) : bool :=
  match dt_tzinfo dt with None => false | Some _ => true end.

(** ** Logging *)

Inductive PyValue : Type :=
| VNone
| VBool (b : bool)
| VInt (z : Z)
| VNumber (x : number)
| VStr (s : string)
| VStrList (l : list string)
| VDatetime (d : datetime).

Inductive LogLevel : Type := INFO | CRITICAL.

(** One call of a [log] method: the level, the format string and its
    arguments.  Formatting happens inside the logging framework, which never
    lets a formatting problem reach the caller. *)
Record LogRecord : Type := mk_log {
  levelname : LogLevel;
  msg : string;
  log_args : list PyValue
}.

Definition opt_str_value (o : option string) : PyValue :=
  match o with None => VNone | Some s => VStr s end.

Definition opt_list_value (o : option (list string)) : PyValue :=
  match o with None => VNone | Some l => VStrList l end.

(** [d if d else 'NA'] *)
Definition date_or_NA (o : option datetime) : PyValue :=
  match o with Some d => VDatetime d | None => VStr "NA" end.

Definition no_filter_message : string :=
  "You must specify a filter (e.g. --courses= or --start-date or --user_ids)".

Definition config_disabled_message : string :=
  "NotifyCredentialsConfig is disabled, but --args-from-database was requested.".

(** ** The command *)

Section Parsetime.

Context {dateutil : Dateutil}.

(** [parsetime(timestr)] *)
Definition parsetime (timestr : string) : Result datetime :=
  match dateutil_parse timestr with
  | Ok dt =>
      match dt_tzinfo dt with
      | None => Ok (replace_tzinfo dt (Some UTC))
      | Some _ => Ok dt
      end
  | Err e => Err e
  end.

End Parsetime.

Section Command.

Context {keys : OpaqueKeys} {parsing : ArgumentParsing}.

(** What [handle_notify_credentials.delay(options, course_keys)] puts on the
    task queue. *)
Record Job : Type := mk_job {
  job_options : Options;
  job_course_keys : list CourseKey
}.

(** What the command reads and writes outside its own variables. *)
Record World : Type := mk_world {
  config : NotifyCredentialsConfig;   (* NotifyCredentialsConfig.current() *)
  clock : datetime;                   (* datetime.now() *)
  queue : list Job;                   (* the task queue *)
  logs : list LogRecord               (* records emitted so far *)
}.

(** Computations that read and change the world and may raise. *)
Definition M (A : Type) : Type := World -> Result A * World.

Definition ret {A : Type} (a : A) : M A := fun w => (Ok a, w).

Definition raise {A : Type} (e : Exception) : M A := fun w => (Err e, w).

Definition bind {A B : Type} (c : M A) (k : A -> M B) : M B :=
  fun w =>
    match c w with
    | (Ok a, w') => k a w'
    | (Err e, w') => (Err e, w')
    end.

Definition lift {A : Type} (r : Result A) : M A := fun w => (r, w).

Notation "x <- c ;; k" := (bind c (fun x => k))
  (at level 61, c at next level, right associativity).
Notation "c ;;; k" := (bind c (fun _ => k))
  (at level 61, right associativity).

Definition NotifyCredentialsConfig_current : M NotifyCredentialsConfig :=
  fun w => (Ok (config w), w).

Definition datetime_now : M datetime :=
  fun w => (Ok (clock w), w).

Definition with_log (w : World) (r : LogRecord) : World :=
  mk_world (config w) (clock w) (queue w) (logs w ++ [r]).

Definition with_job (w : World) (j : Job) : World :=
  mk_world (config w) (clock w) (queue w ++ [j]) (logs w).

Definition log_emit (level : LogLevel) (fmt : string) (args : list PyValue) : M unit :=
  fun w => (Ok tt, with_log w (mk_log level fmt args)).

Definition log_info := log_emit INFO.
Definition log_fatal := log_emit CRITICAL.

Definition handle_notify_credentials_delay
    (options : Options) (course_keys : list CourseKey) : M unit :=
  fun w => (Ok tt, with_job w (mk_job options course_keys)).

(** [Command.get_args_from_database] *)
Definition get_args_from_database : M Options :=
  config <- NotifyCredentialsConfig_current ;;
  if negb (enabled config) then
    raise (CommandError config_disabled_message)
  else
    argv <- lift (shlex_split (arguments config)) ;;
    lift (parse_args argv).

(** The [for course_id in courses] loop of [get_course_keys]; [course_keys] is
    the list built so far. *)
Fixpoint get_course_keys_loop
    (courses : list string) (course_keys : list CourseKey) : M (list CourseKey) :=
  match courses with
  | [] => ret course_keys
  | course_id :: rest =>
      match from_string course_id with
      | Some key => get_course_keys_loop rest (course_keys ++ [key])
      | None =>
          log_fatal "%s is not a parseable CourseKey" [VStr course_id] ;;;
          raise (SystemExit 1)
      end
  end.

(** [if not courses: courses = []] *)
Definition courses_or_empty (courses : option (list string)) : list string :=
  if negb (truthy_opt_list courses) then []
  else match courses with Some l => l | None => [] end.

(** [Command.get_course_keys] *)
Definition get_course_keys (courses : option (list string)) : M (list CourseKey) :=
  let courses := courses_or_empty courses in
  log_info "%d courses specified: %s"
    [VInt (Z.of_nat (length courses)); VStr (String.concat ", " courses)] ;;;
  get_course_keys_loop courses [].

Definition start_message : string :=
  "notify_credentials starting, dry-run=%s, site=%s, delay=%d seconds, page_size=%d, from=%s, to=%s, notify_programs=%s, user_ids=%s, execution=%s".

(** The arguments of the [log.info] call of lines 152-164. *)
Definition start_args (options : Options) : list PyValue :=
  [VBool (dry_run options);
   opt_str_value (site options);
   VNumber (delay options);
   VInt (page_size options);
   date_or_NA (start_date options);
   date_or_NA (end_date options);
   VBool (notify_programs options);
   opt_list_value (user_ids options);
   VStr (if auto options then "auto" else "manual")].

(** [Command.handle] *)
Definition handle (options : Options) : M unit :=
  options <- (if args_from_database options then get_args_from_database
              else ret options) ;;
  options <- (if auto options then
                now <- datetime_now ;;
                let end_date := replace_minute_second_microsecond now 0 0 0 in
                start <- lift (datetime_sub end_date (timedelta_new 0 4 0 0 0)) ;;
                ret (set_start_date (set_end_date options (Some end_date))
                       (Some start))
              else ret options) ;;
  log_info start_message (start_args options) ;;;
  course_keys <- get_course_keys (courses options) ;;
  if negb (truthy_list course_keys
           || truthy_opt_datetime (start_date options)
           || truthy_opt_datetime (end_date options)
           || truthy_opt_list (user_ids options)) then
    raise (CommandError no_filter_message)
  else
    handle_notify_credentials_delay options course_keys.

(** Lines 148-150 of [handle] on their own: the date window of [--auto]. *)
Definition auto_window (options : Options) : M Options :=
  if auto options then
    now <- datetime_now ;;
    let end_date := replace_minute_second_microsecond now 0 0 0 in
    start <- lift (datetime_sub end_date (timedelta_new 0 4 0 0 0)) ;;
    ret (set_start_date (set_end_date options (Some end_date)) (Some start))
  else ret options.

(** Lines 145-150 of [handle]: the options the rest of the run works with. *)
Definition resolve_options (options : Options) : M Options :=
  options <- (if args_from_database options then get_args_from_database
              else ret options) ;;
  auto_window options.

(** The test of line 167 on the options alone. *)
Definition filter_present (options : Options) : bool :=
  truthy_opt_list (courses options)
  || truthy_opt_datetime (start_date options)
  || truthy_opt_datetime (end_date options)
  || truthy_opt_list (user_ids options).

(** [CourseKey.from_string] does not raise on this identifier. *)
Definition parseable (course_id : string) : bool :=
  match from_string course_id with Some _ => true | None => false end.

(** Lines 152-170 of [handle]: what happens to resolved options. *)
Definition dispatch (options : Options) : M unit :=
  log_info start_message (start_args options) ;;;
  course_keys <- get_course_keys (courses options) ;;
  if negb (truthy_list course_keys
           || truthy_opt_datetime (start_date options)
           || truthy_opt_datetime (end_date options)
           || truthy_opt_list (user_ids options)) then
    raise (CommandError no_filter_message)
  else
    handle_notify_credentials_delay options course_keys.

(** *** Vocabulary of the properties *)

(** The record that [get_course_keys] emits first. *)
Definition courses_record (l : list string) : LogRecord :=
  mk_log INFO "%d courses specified: %s"
    [VInt (Z.of_nat (length l)); VStr (String.concat ", " l)].

(** The record that precedes [sys.exit(1)]. *)
Definition critical_record (course_id : string) : LogRecord :=
  mk_log CRITICAL "%s is not a parseable CourseKey" [VStr course_id].

(** The record that [handle] emits once the options are resolved. *)
Definition start_record (options : Options) : LogRecord :=
  mk_log INFO start_message (start_args options).

(** The world in which [dispatch] takes its decision: two INFO records later. *)
Definition logged (r : Options) (w : World) : World :=
  with_log (with_log w (start_record r))
    (courses_record (courses_or_empty (courses r))).

(** The three ways in which an invocation fails validation: the database
    configuration is requested but disabled, a course identifier of the
    resolved options does not parse, or the resolved options hold no filter. *)
Definition fails_validation (options : Options) (w : World) : Prop :=
  (args_from_database options = true /\ enabled (config w) = false) \/
  exists r w1,
    resolve_options options w = (Ok r, w1) /\
    (existsb (fun s => negb (parseable s)) (courses_or_empty (courses r)) = true \/
     filter_present r = false).

End Command.

(** ** Stand-ins for the collaborators

    Small executable instances of the three interfaces, used to run the
    command on concrete invocations.  They cover the inputs that the module's
    own documentation shows ([course-v1:edX+DemoX+Demo_Course],
    [--start-date 2018-06-01], ["2020-10-20 04:00:00"]); the general results
    below hold for every instance. *)

Module Standin.

Fixpoint split_on (sep : ascii) (s : string) : list string :=
  match s with
  | EmptyString => [EmptyString]
  | String c rest =>
      if Ascii.eqb c sep then EmptyString :: split_on sep rest
      else match split_on sep rest with
           | [] => [String c EmptyString]
           | t :: ts => String c t :: ts
           end
  end.

Definition nonempty (s : string) : bool :=
  match s with EmptyString => false | String _ _ => true end.

Definition digit_value (c : ascii) : option Z :=
  let n := Z.of_nat (nat_of_ascii c) in
  if (48 <=? n) && (n <=? 57) then Some (n - 48) else None.

Fixpoint decimal_from (acc : Z) (s : string) : option Z :=
  match s with
  | EmptyString => Some acc
  | String c rest =>
      match digit_value c with
      | Some d => decimal_from (10 * acc + d) rest
      | None => None
      end
  end.

Definition decimal (s : string) : option Z :=
  if nonempty s then decimal_from 0 s else None.

(** Course keys of the [course-v1:org+course+run] form. *)
Definition course_key_from_string (s : string) : option (string * string * string) :=
  if String.prefix "course-v1:" s then
    match split_on "+"%char (substring 10 (String.length s - 10) s) with
    | [org; course; run] =>
        if nonempty org && nonempty course && nonempty run
        then Some (org, course, run) else None
    | _ => None
    end
  else None.

#[export] Instance keys : OpaqueKeys := {
  CourseKey := string * string * string;
  from_string := course_key_from_string
}.

Definition is_leap (y : Z) : bool :=
  (y mod 4 =? 0) && (negb (y mod 100 =? 0) || (y mod 400 =? 0)).

Definition days_before_year (y : Z) : Z :=
  let y := y - 1 in y * 365 + y / 4 - y / 100 + y / 400.

Definition days_in_month (y m : Z) : Z :=
  if m =? 2 then (if is_leap y then 29 else 28)
  else if (m =? 4) || (m =? 6) || (m =? 9) || (m =? 11) then 30 else 31.

Definition days_before_month (y m : Z) : Z :=
  nth (Z.to_nat m) [0; 0; 31; 59; 90; 120; 151; 181; 212; 243; 273; 304; 334] 0
  + (if (2 <? m) && is_leap y then 1 else 0).

Definition ymd2ord (y m d : Z) : option Z :=
  if (1 <=? y) && (y <=? 9999) && (1 <=? m) && (m <=? 12)
     && (1 <=? d) && (d <=? days_in_month y m)
  then Some (days_before_year y + days_before_month y m + d) else None.

Definition parse_date (s : string) : option Z :=
  match map decimal (split_on "-"%char s) with
  | [Some y; Some m; Some d] => ymd2ord y m d
  | _ => None
  end.

Definition parse_clock (s : string) : option (Z * Z * Z) :=
  match map decimal (split_on ":"%char s) with
  | [Some h; Some mi; Some sec] =>
      if (h <? 24) && (mi <? 60) && (sec <? 60) then Some (h, mi, sec) else None
  | _ => None
  end.

(** Dates written [YYYY-MM-DD], optionally followed by [HH:MM:SS]; the result
    is naive. *)
Definition parse_datetime (s : string) : Result datetime :=
  let bad := Err (ValueError "Unknown string format") in
  match split_on " "%char s with
  | [d] =>
      match parse_date d with
      | Some o => Ok (mk_datetime o 0 0 0 0 None)
      | None => bad
      end
  | [d; t] =>
      match parse_date d, parse_clock t with
      | Some o, Some (h, mi, sec) => Ok (mk_datetime o h mi sec 0 None)
      | _, _ => bad
      end
  | _ => bad
  end.

#[export] Instance dateutil : Dateutil := {
  dateutil_parse := parse_datetime
}.

(** Splitting at blanks; a pair of double quotes (character 34) keeps the
    blanks between them inside the word. *)
Fixpoint split_words (s : string) (word : option string) (quoted : bool)
    : Result (list string) :=
  let close w := match w with Some t => [t] | None => [] end in
  let push c w := match w with Some t => Some (t ++ String c EmptyString)%string
                             | None => Some (String c EmptyString) end in
  match s with
  | EmptyString =>
      if quoted then Err (ValueError "No closing quotation") else Ok (close word)
  | String c rest =>
      if Ascii.eqb c (ascii_of_nat 34) then
        split_words rest (match word with Some t => Some t | None => Some EmptyString end)
          (negb quoted)
      else if Ascii.eqb c " "%char && negb quoted then
        match split_words rest None false with
        | Ok ws => Ok (close word ++ ws)
        | Err e => Err e
        end
      else split_words rest (push c word) quoted
  end.

Definition default_options : Options :=
  mk_options false None None None None (PyInt 0) 100 false false false false None
    [("verbosity", "1"); ("settings", "None"); ("pythonpath", "None");
     ("traceback", "False"); ("no_color", "False"); ("force_color", "False");
     ("skip_checks", "False")].

(** The destination that is waiting for values while the tokens are read. *)
Inductive Pending : Type :=
| Nothing
| One (flag : string)
| Many (flag : string) (seen : bool).

Definition with_site (o : Options) (v : option string) : Options :=
  mk_options (dry_run o) v (courses o) (start_date o) (end_date o) (delay o)
    (page_size o) (auto o) (args_from_database o) (verbose o)
    (notify_programs o) (user_ids o) (base_options o).

Definition with_courses (o : Options) (v : option (list string)) : Options :=
  mk_options (dry_run o) (site o) v (start_date o) (end_date o) (delay o)
    (page_size o) (auto o) (args_from_database o) (verbose o)
    (notify_programs o) (user_ids o) (base_options o).

Definition with_user_ids (o : Options) (v : option (list string)) : Options :=
  mk_options (dry_run o) (site o) (courses o) (start_date o) (end_date o)
    (delay o) (page_size o) (auto o) (args_from_database o) (verbose o)
    (notify_programs o) v (base_options o).

Definition with_page_size (o : Options) (v : Z) : Options :=
  mk_options (dry_run o) (site o) (courses o) (start_date o) (end_date o)
    (delay o) v (auto o) (args_from_database o) (verbose o)
    (notify_programs o) (user_ids o) (base_options o).

Definition with_flags (o : Options) (dry au db vb np : bool) : Options :=
  mk_options (dry_run o || dry) (site o) (courses o) (start_date o) (end_date o)
    (delay o) (page_size o) (auto o || au) (args_from_database o || db)
    (verbose o || vb) (notify_programs o || np) (user_ids o) (base_options o).

Definition parse_error {A : Type} (what : string) : Result A :=
  Err (CommandError ("Error: " ++ what)%string).

(** A value token for the destination that is waiting. *)
Definition store_value (o : Options) (p : Pending) (tok : string)
    : Result (Options * Pending) :=
  match p with
  | Nothing => parse_error ("unrecognized arguments: " ++ tok)%string
  | One flag =>
      if String.eqb flag "--site" then Ok (with_site o (Some tok), Nothing)
      else if String.eqb flag "--page-size" then
        match decimal tok with
        | Some n => Ok (with_page_size o n, Nothing)
        | None => parse_error "argument --page-size: invalid int value"
        end
      else
        match parsetime tok with
        | Ok d =>
            if String.eqb flag "--start-date"
            then Ok (set_start_date o (Some d), Nothing)
            else Ok (set_end_date o (Some d), Nothing)
        | Err _ => parse_error ("argument " ++ flag ++ ": invalid parsetime value")%string
        end
  | Many flag _ =>
      let add l := match l with Some vs => Some (vs ++ [tok]) | None => Some [tok] end in
      if String.eqb flag "--courses"
      then Ok (with_courses o (add (courses o)), Many flag true)
      else Ok (with_user_ids o (add (user_ids o)), Many flag true)
  end.

(** A token that starts with [--]. *)
Definition start_flag (o : Options) (tok : string) : Result (Options * Pending) :=
  if String.eqb tok "--dry-run" then Ok (with_flags o true false false false false, Nothing)
  else if String.eqb tok "--auto" then Ok (with_flags o false true false false false, Nothing)
  else if String.eqb tok "--args-from-database" then
    Ok (with_flags o false false true false false, Nothing)
  else if String.eqb tok "--verbose" then Ok (with_flags o false false false true false, Nothing)
  else if String.eqb tok "--notify_programs" then
    Ok (with_flags o false false false false true, Nothing)
  else if String.eqb tok "--site" || String.eqb tok "--page-size"
          || String.eqb tok "--start-date" || String.eqb tok "--end-date" then
    Ok (o, One tok)
  else if String.eqb tok "--courses" then Ok (with_courses o None, Many tok false)
  else if String.eqb tok "--user_ids" then Ok (with_user_ids o None, Many tok false)
  else parse_error ("unrecognized arguments: " ++ tok)%string.

Definition satisfied (p : Pending) : bool :=
  match p with
  | Nothing | Many _ true => true
  | One _ | Many _ false => false
  end.

Fixpoint parse_tokens (argv : list string) (o : Options) (p : Pending)
    : Result Options :=
  match argv with
  | [] => if satisfied p then Ok o else parse_error "expected at least one argument"
  | tok :: rest =>
      let step :=
        if String.prefix "--" tok then
          if satisfied p then start_flag o tok
          else parse_error "expected at least one argument"
        else store_value o p tok in
      match step with
      | Ok (o', p') => parse_tokens rest o' p'
      | Err e => Err e
      end
  end.

#[export] Instance parsing : ArgumentParsing := {
  shlex_split := fun s => split_words s None false;
  parse_args := fun argv => parse_tokens argv default_options Nothing
}.

(** A naive wall-clock reading: 2024-03-15 10:37:12.000250. *)
Definition a_clock : datetime := mk_datetime 738960 10 37 12 250 None.

(** A world with an empty queue and no log record yet. *)
Definition world_of (cfg : NotifyCredentialsConfig) : World :=
  mk_world cfg a_clock [] [].

Definition disabled_world : World := world_of (mk_config false EmptyString).

Definition enabled_world (stored : string) : World :=
  world_of (mk_config true stored).

(** A disabled record whose stored arguments open a quotation (character 34)
    and never close it, so that splitting them would raise. *)
Definition disabled_unsplittable_world : World :=
  world_of (mk_config false (String (ascii_of_nat 34) "2020-10-20 04:00:00")).

(** An enabled record whose stored arguments open a quotation and never
    close it. *)
Definition enabled_unsplittable_world : World :=
  enabled_world (String (ascii_of_nat 34) "2020-10-20 04:00:00").


(** The options dictionary of a command line. *)
Definition cli (argv : list string) : Options :=
  match parse_args argv with
  | Ok o => o
  | Err _ => default_options
  end.

Definition demo_course : string := "course-v1:edX+DemoX+Demo_Course".

(** A periodic run that also names an end date, and what it resolves to at
    [a_clock]: the window from 06:00 to 10:00 of 2024-03-15. *)
Definition periodic : Options := cli ["--auto"; "--end-date"; "2018-06-01"].

Definition periodic_resolved : Options :=
  set_start_date
    (set_end_date (cli ["--auto"]) (Some (mk_datetime 738960 10 0 0 0 None)))
    (Some (mk_datetime 738960 6 0 0 0 None)).

(** A start date, and three course identifiers of which the second does
    not parse. *)
Definition mixed_courses : Options :=
  cli ["--start-date"; "2018-06-01"; "--courses"; demo_course; "edX-DemoX";
       "course-v1:edX+RecordsSelfPaced+1"].

(** The demo course alone, and the world in which its run ends. *)
Definition demo_run : Options := cli ["--courses"; demo_course].

Definition demo_done : World :=
  with_job (logged demo_run disabled_world)
    (mk_job demo_run [("edX", "DemoX", "Demo_Course")]).

(** An options dictionary whose only filter entry is an empty list of user
    ids, as a caller of [call_command] can pass it. *)
Definition empty_user_ids : Options :=
  with_user_ids default_options (Some []).

(** 2018-06-01 00:00:00, as [dateutil] returns it and as [parsetime] does. *)
Definition june_first_naive : datetime := mk_datetime 736846 0 0 0 0 None.
Definition june_first : datetime := mk_datetime 736846 0 0 0 0 (Some UTC).

End Standin.

(** * Properties *)

(** ** parsetime *)

Section ParsetimeProperties.

Context {dateutil : Dateutil}.

(** C8.  Whenever the date parser accepts the string, [parsetime] returns a
    datetime that carries a time zone: it is UTC when the parsed value had
    none, and the parsed value itself, time zone included, when it had one.
    In both cases date and time of day are those of the parsed value. *)
Theorem parsetime_returns_aware (timestr : string) (dt : datetime) :
  dateutil_parse timestr = Ok dt ->
  exists dt',
    parsetime timestr = Ok dt' /\
    aware dt' = true /\
    (dt_tzinfo dt = None -> dt' = replace_tzinfo dt (Some UTC)) /\
    (forall tz, dt_tzinfo dt = Some tz -> dt' = dt) /\
    replace_tzinfo dt' None = replace_tzinfo dt None.
Proof.
  intros Hparse. unfold parsetime. rewrite Hparse.
  destruct (dt_tzinfo dt) as [tz|] eqn:Htz.
  - exists dt. unfold aware. rewrite Htz.
    repeat split; try reflexivity; discriminate.
  - exists (replace_tzinfo dt (Some UTC)).
    repeat split; try reflexivity; discriminate.
Qed.

End ParsetimeProperties.

(** ** The command *)

Section CommandProperties.

Context {keys : OpaqueKeys} {parsing : ArgumentParsing}.

Notation "x <- c ;; k" := (bind c (fun x => k))
  (at level 61, c at next level, right associativity).

(** *** The monad *)

Lemma bind_ok {A B : Type} (c : M A) (k : A -> M B) (w w' : World) (a : A) :
  c w = (Ok a, w') -> bind c k w = k a w'.
Proof. intros H. unfold bind. rewrite H. reflexivity. Qed.

Lemma bind_err {A B : Type} (c : M A) (k : A -> M B) (w w' : World) (e : Exception) :
  c w = (Err e, w') -> bind c k w = (Err e, w').
Proof. intros H. unfold bind. rewrite H. reflexivity. Qed.

(** *** Course keys *)

Lemma courses_or_empty_some (l : list string) : courses_or_empty (Some l) = l.
Proof. destruct l; reflexivity. Qed.

Lemma courses_or_empty_truthy (o : option (list string)) :
  truthy_list (courses_or_empty o) = truthy_opt_list o.
Proof. destruct o as [[|s l]|]; reflexivity. Qed.

(** When every identifier parses the loop runs to its end, appends one key per
    identifier in order and touches nothing. *)
Lemma get_course_keys_loop_ok (l : list string) :
  forallb parseable l = true ->
  forall (acc : list CourseKey) (w : World),
  exists ks,
    get_course_keys_loop l acc w = (Ok (acc ++ ks), w) /\
    map Some ks = map from_string l.
Proof.
  induction l as [|s l IH]; intros Hall acc w.
  - exists []. simpl. rewrite app_nil_r. split; reflexivity.
  - simpl in Hall. apply andb_true_iff in Hall as [Hs Hl].
    unfold parseable in Hs. simpl.
    destruct (from_string s) as [k|] eqn:Hk; [|discriminate].
    destruct (IH Hl (acc ++ [k]) w) as (ks & Hrun & Hmap).
    exists (k :: ks). rewrite Hrun, <- app_assoc. simpl.
    split; [reflexivity | now rewrite Hmap].
Qed.

(** Otherwise the loop stops at the first identifier that does not parse, with
    one CRITICAL record and [sys.exit(1)]. *)
Lemma get_course_keys_loop_exit (l : list string) :
  existsb (fun s => negb (parseable s)) l = true ->
  forall (acc : list CourseKey) (w : World),
  exists bad,
    In bad l /\ from_string bad = None /\
    get_course_keys_loop l acc w =
      (Err (SystemExit 1),
       with_log w (mk_log CRITICAL "%s is not a parseable CourseKey" [VStr bad])).
Proof.
  induction l as [|s l IH]; intros Hex acc w; [discriminate|].
  simpl in Hex. simpl. unfold parseable in Hex at 1.
  destruct (from_string s) as [k|] eqn:Hk.
  - simpl in Hex. destruct (IH Hex (acc ++ [k]) w) as (bad & Hin & Hbad & Hrun).
    exists bad. auto.
  - exists s. auto.
Qed.

Lemma all_or_some_unparseable (l : list string) :
  forallb parseable l = negb (existsb (fun s => negb (parseable s)) l).
Proof.
  induction l as [|s l IH]; [reflexivity|].
  simpl. rewrite IH. destruct (parseable s); reflexivity.
Qed.

Lemma get_course_keys_ok (o : option (list string)) (w : World) :
  forallb parseable (courses_or_empty o) = true ->
  exists ks,
    get_course_keys o w = (Ok ks, with_log w (courses_record (courses_or_empty o))) /\
    map Some ks = map from_string (courses_or_empty o).
Proof.
  intros Hall. unfold get_course_keys.
  destruct (get_course_keys_loop_ok _ Hall []
              (with_log w (courses_record (courses_or_empty o)))) as (ks & Hrun & Hmap).
  exists ks. split; [|exact Hmap].
  unfold bind, log_info, log_emit. exact Hrun.
Qed.

Lemma get_course_keys_exit (o : option (list string)) (w : World) :
  existsb (fun s => negb (parseable s)) (courses_or_empty o) = true ->
  exists bad,
    In bad (courses_or_empty o) /\ from_string bad = None /\
    get_course_keys o w =
      (Err (SystemExit 1),
       with_log (with_log w (courses_record (courses_or_empty o)))
         (mk_log CRITICAL "%s is not a parseable CourseKey" [VStr bad])).
Proof.
  intros Hex. unfold get_course_keys.
  destruct (get_course_keys_loop_exit _ Hex []
              (with_log w (courses_record (courses_or_empty o)))) as (bad & Hin & Hbad & Hrun).
  exists bad. split; [exact Hin|]. split; [exact Hbad|].
  unfold bind, log_info, log_emit. exact Hrun.
Qed.

(** The outcome of [get_course_keys] is one of the two above. *)
Lemma get_course_keys_cases (o : option (list string)) (w : World) :
  (exists ks w', get_course_keys o w = (Ok ks, w') /\ queue w' = queue w /\
                 truthy_list ks = truthy_opt_list o) \/
  (exists w', get_course_keys o w = (Err (SystemExit 1), w') /\ queue w' = queue w).
Proof.
  destruct (forallb parseable (courses_or_empty o)) eqn:Hall.
  - left. destruct (get_course_keys_ok o w Hall) as (ks & Hrun & Hmap).
    exists ks. eexists. split; [exact Hrun|]. split; [reflexivity|].
    rewrite <- courses_or_empty_truthy.
    destruct ks, (courses_or_empty o); try reflexivity; discriminate.
  - right. rewrite all_or_some_unparseable in Hall.
    apply negb_false_iff in Hall.
    destruct (get_course_keys_exit o w Hall) as (bad & _ & _ & Hrun).
    eexists. split; [exact Hrun | reflexivity].
Qed.

(** C9.  When every identifier of the list parses, [get_course_keys] returns
    the keys of the identifiers, one per identifier and in the same order; for
    [None] and for the empty list it returns the empty list. *)
Theorem get_course_keys_maps_from_string (courses : list string) (w : World) :
  forallb parseable courses = true ->
  (exists ks w',
     get_course_keys (Some courses) w = (Ok ks, w') /\
     length ks = length courses /\
     (forall i, option_map Some (nth_error ks i)
                = option_map from_string (nth_error courses i))) /\
  fst (get_course_keys None w) = Ok [] /\
  fst (get_course_keys (Some []) w) = Ok [].
Proof.
  intros Hall. split; [|split; reflexivity].
  rewrite <- (courses_or_empty_some courses) in Hall.
  destruct (get_course_keys_ok (Some courses) w Hall) as (ks & Hrun & Hmap).
  rewrite courses_or_empty_some in Hmap.
  exists ks. eexists. split; [exact Hrun|]. split.
  - rewrite <- (length_map Some ks), Hmap. apply length_map.
  - intros i. rewrite <- !nth_error_map, Hmap. reflexivity.
Qed.

(** C2.  When some identifier of the list does not parse, [get_course_keys]
    neither returns nor raises an ordinary error: it ends in [sys.exit(1)],
    after a CRITICAL record that names an identifier that does not parse. *)
Theorem get_course_keys_invalid_exits (courses : list string) (w : World) :
  existsb (fun s => negb (parseable s)) courses = true ->
  exists bad w',
    get_course_keys (Some courses) w = (Err (SystemExit 1), w') /\
    In bad courses /\ from_string bad = None /\
    last (logs w') (mk_log INFO EmptyString []) =
      mk_log CRITICAL "%s is not a parseable CourseKey" [VStr bad] /\
    queue w' = queue w.
Proof.
  intros Hex. rewrite <- (courses_or_empty_some courses) in Hex.
  destruct (get_course_keys_exit (Some courses) w Hex) as (bad & Hin & Hbad & Hrun).
  rewrite courses_or_empty_some in Hin.
  exists bad. eexists. split; [exact Hrun|].
  repeat split; try assumption.
  simpl. apply last_last.
Qed.

(** The list of keys is empty exactly when no identifier was given. *)
Lemma get_course_keys_empty (o : option (list string)) (w : World) :
  fst (get_course_keys o w) = Ok [] <-> truthy_opt_list o = false.
Proof.
  split.
  - intros Hkeys. destruct (forallb parseable (courses_or_empty o)) eqn:Hall.
    + destruct (get_course_keys_ok o w Hall) as (ks & Hrun & Hmap).
      rewrite Hrun in Hkeys. simpl in Hkeys. injection Hkeys as ->.
      rewrite <- courses_or_empty_truthy.
      destruct (courses_or_empty o); [reflexivity | discriminate].
    + rewrite all_or_some_unparseable in Hall. apply negb_false_iff in Hall.
      destruct (get_course_keys_exit o w Hall) as (bad & _ & _ & Hrun).
      rewrite Hrun in Hkeys. discriminate.
  - intros Hfalsy. unfold get_course_keys, courses_or_empty.
    rewrite Hfalsy. reflexivity.
Qed.

(** *** Option resolution *)

(** Resolving the options reads the configuration and the clock and writes
    nothing. *)
Lemma get_args_from_database_frame (w w' : World) (res : Result Options) :
  get_args_from_database w = (res, w') -> w' = w.
Proof.
  unfold get_args_from_database, bind, NotifyCredentialsConfig_current, raise, lift.
  destruct (enabled (config w)); simpl.
  - destruct (shlex_split (arguments (config w))); intros [= _ <-]; reflexivity.
  - intros [= _ <-]; reflexivity.
Qed.

Lemma auto_window_frame (o : Options) (w w' : World) (res : Result Options) :
  auto_window o w = (res, w') -> w' = w.
Proof.
  unfold auto_window, bind, datetime_now, lift, ret.
  destruct (auto o); [|intros [= _ <-]; reflexivity].
  destruct (datetime_sub _ _); intros [= _ <-]; reflexivity.
Qed.

Lemma resolve_options_frame (o : Options) (w w' : World) (res : Result Options) :
  resolve_options o w = (res, w') -> w' = w.
Proof.
  unfold resolve_options, bind.
  destruct (args_from_database o).
  - destruct (get_args_from_database w) as [[db|e] w1] eqn:Hdb.
    + apply get_args_from_database_frame in Hdb. subst w1.
      apply auto_window_frame.
    + apply get_args_from_database_frame in Hdb. now intros [= _ <-].
  - unfold ret. apply auto_window_frame.
Qed.

(** [handle] resolves the options and then handles the resolved ones. *)
Lemma handle_resolve_dispatch (options : Options) (w : World) :
  handle options w = bind (resolve_options options) dispatch w.
Proof.
  unfold handle, resolve_options, auto_window, dispatch, bind, ret, lift,
    datetime_now.
  destruct (args_from_database options);
    [destruct (get_args_from_database w) as [[db|e] w1]|]; try reflexivity;
    (destruct (auto _); [destruct (datetime_sub _ _)|]; reflexivity).
Qed.

(** *** Dispatch *)

Lemma truthy_keys (ks : list CourseKey) (o : option (list string)) :
  map Some ks = map from_string (courses_or_empty o) ->
  truthy_list ks = truthy_opt_list o.
Proof.
  intros Hmap. rewrite <- courses_or_empty_truthy.
  destruct ks, (courses_or_empty o); try reflexivity; discriminate.
Qed.

Lemma dispatch_enqueues (r : Options) (w : World) :
  forallb parseable (courses_or_empty (courses r)) = true ->
  filter_present r = true ->
  exists ks,
    dispatch r w = (Ok tt, with_job (logged r w) (mk_job r ks)) /\
    map Some ks = map from_string (courses_or_empty (courses r)).
Proof.
  intros Hall Hfilter.
  destruct (get_course_keys_ok (courses r) (with_log w (start_record r)) Hall)
    as (ks & Hrun & Hmap).
  exists ks. split; [|exact Hmap].
  unfold dispatch. unfold bind at 1. unfold log_info at 1, log_emit at 1.
  fold (start_record r). erewrite bind_ok by exact Hrun.
  rewrite (truthy_keys _ _ Hmap). fold (filter_present r). rewrite Hfilter.
  reflexivity.
Qed.

Lemma dispatch_no_filter (r : Options) (w : World) :
  forallb parseable (courses_or_empty (courses r)) = true ->
  filter_present r = false ->
  dispatch r w = (Err (CommandError no_filter_message), logged r w).
Proof.
  intros Hall Hfilter.
  destruct (get_course_keys_ok (courses r) (with_log w (start_record r)) Hall)
    as (ks & Hrun & Hmap).
  unfold dispatch. unfold bind at 1. unfold log_info at 1, log_emit at 1.
  fold (start_record r). erewrite bind_ok by exact Hrun.
  rewrite (truthy_keys _ _ Hmap). fold (filter_present r). rewrite Hfilter.
  reflexivity.
Qed.

Lemma dispatch_exit (r : Options) (w : World) :
  existsb (fun s => negb (parseable s)) (courses_or_empty (courses r)) = true ->
  exists w', dispatch r w = (Err (SystemExit 1), w') /\ queue w' = queue w.
Proof.
  intros Hex.
  destruct (get_course_keys_exit (courses r) (with_log w (start_record r)) Hex)
    as (bad & _ & _ & Hrun).
  eexists. split.
  - unfold dispatch. unfold bind at 1. unfold log_info at 1, log_emit at 1.
    fold (start_record r). erewrite bind_err by exact Hrun. reflexivity.
  - reflexivity.
Qed.

(** Whatever the options, [dispatch] either returns after adding one job or
    fails and leaves the queue as it was. *)
Lemma dispatch_cases (r : Options) (w : World) :
  (exists ks, dispatch r w = (Ok tt, with_job (logged r w) (mk_job r ks))) \/
  (exists e w', dispatch r w = (Err e, w') /\ queue w' = queue w /\
                (e = SystemExit 1 \/ e = CommandError no_filter_message)).
Proof.
  destruct (forallb parseable (courses_or_empty (courses r))) eqn:Hall.
  - destruct (filter_present r) eqn:Hfilter.
    + left. destruct (dispatch_enqueues r w Hall Hfilter) as (ks & Hrun & _).
      exists ks. exact Hrun.
    + right. exists (CommandError no_filter_message), (logged r w).
      rewrite (dispatch_no_filter r w Hall Hfilter). auto.
  - right. rewrite all_or_some_unparseable in Hall. apply negb_false_iff in Hall.
    destruct (dispatch_exit r w Hall) as (w' & Hrun & Hq).
    exists (SystemExit 1), w'. auto.
Qed.

(** *** The claims about [handle] *)

Lemma get_args_from_database_disabled (w : World) :
  enabled (config w) = false ->
  get_args_from_database w = (Err (CommandError config_disabled_message), w).
Proof.
  intros Hoff.
  unfold get_args_from_database, bind, NotifyCredentialsConfig_current.
  rewrite Hoff. reflexivity.
Qed.

(** An error while the options are fetched from the database is the outcome
    of the whole run. *)
Lemma handle_database_error (options : Options) (w w' : World) (e : Exception) :
  args_from_database options = true ->
  get_args_from_database w = (Err e, w') ->
  handle options w = (Err e, w').
Proof.
  intros Hdb Hget.
  rewrite handle_resolve_dispatch. unfold resolve_options.
  rewrite Hdb. unfold bind. rewrite Hget. reflexivity.
Qed.

(** C3.  With [--args-from-database] and a disabled configuration record the
    command raises [CommandError] right after reading the record: the stored
    arguments are neither split nor parsed, nothing is logged and nothing is
    queued, whatever the splitter and the parser would have done. *)
Theorem handle_disabled_config_raises (options : Options) (w : World) :
  args_from_database options = true ->
  enabled (config w) = false ->
  get_args_from_database w = (Err (CommandError config_disabled_message), w) /\
  handle options w = (Err (CommandError config_disabled_message), w).
Proof.
  intros Hdb Hoff.
  pose proof (get_args_from_database_disabled w Hoff) as Hget.
  split; [exact Hget|].
  now apply handle_database_error.
Qed.

(** C1.  When, once the options are resolved, the list of course keys is
    empty and start date, end date and user ids are unset, the command raises
    the no-filter [CommandError]; the queue is left as it was. *)
Theorem handle_no_filter_raises (options r : Options) (w w1 : World) :
  resolve_options options w = (Ok r, w1) ->
  fst (get_course_keys (courses r) w1) = Ok [] ->
  start_date r = None ->
  end_date r = None ->
  user_ids r = None ->
  exists w',
    handle options w = (Err (CommandError no_filter_message), w') /\
    queue w' = queue w.
Proof.
  intros Hres Hkeys Hstart Hend Hids.
  pose proof (resolve_options_frame _ _ Hres) as ->.
  apply get_course_keys_empty in Hkeys.
  assert (Hall : forallb parseable (courses_or_empty (courses r)) = true).
  { rewrite <- courses_or_empty_truthy in Hkeys.
    destruct (courses_or_empty (courses r)); [reflexivity | discriminate]. }
  assert (Hfilter : filter_present r = false).
  { unfold filter_present. rewrite Hkeys, Hstart, Hend, Hids. reflexivity. }
  exists (logged r w). split; [|reflexivity].
  rewrite handle_resolve_dispatch. erewrite bind_ok by exact Hres.
  apply dispatch_no_filter; assumption.
Qed.

(** C4.  When option resolution succeeds, every course identifier of the
    resolved options parses and a filter is present, the command returns
    after adding exactly one job to the queue; the job carries the resolved
    options and the keys of the resolved course identifiers, in order. *)
Theorem handle_enqueues_one_job (options r : Options) (w w1 : World) :
  resolve_options options w = (Ok r, w1) ->
  forallb parseable (courses_or_empty (courses r)) = true ->
  filter_present r = true ->
  exists course_keys w',
    handle options w = (Ok tt, w') /\
    queue w' = queue w ++ [mk_job r course_keys] /\
    fst (get_course_keys (courses r) w1) = Ok course_keys /\
    map Some course_keys = map from_string (courses_or_empty (courses r)).
Proof.
  intros Hres Hall Hfilter.
  pose proof (resolve_options_frame _ _ Hres) as ->.
  destruct (dispatch_enqueues r w Hall Hfilter) as (ks & Hrun & Hmap).
  exists ks, (with_job (logged r w) (mk_job r ks)).
  split; [|split; [reflexivity|split; [|exact Hmap]]].
  - rewrite handle_resolve_dispatch. erewrite bind_ok by exact Hres. exact Hrun.
  - destruct (get_course_keys_ok (courses r) w Hall) as (ks' & Hrun' & Hmap').
    rewrite Hrun'. simpl. f_equal.
    rewrite <- Hmap in Hmap'. clear - Hmap'.
    revert ks Hmap'. induction ks' as [|k ks' IH]; intros [|k0 ks0] H;
      try discriminate; [reflexivity|].
    simpl in H. injection H as -> H. f_equal. now apply IH.
Qed.

(** An invocation that ends in an exception has queued nothing. *)
Lemma handle_error_queue (options : Options) (w w' : World) (e : Exception) :
  handle options w = (Err e, w') -> queue w' = queue w.
Proof.
  rewrite handle_resolve_dispatch. unfold bind at 1.
  destruct (resolve_options options w) as [[r|e0] w1] eqn:Hres.
  - pose proof (resolve_options_frame _ _ Hres) as ->.
    destruct (dispatch_cases r w) as [(ks & Hrun)|(e1 & w2 & Hrun & Hq & _)];
      rewrite Hrun.
    + discriminate.
    + now intros [= _ <-].
  - pose proof (resolve_options_frame _ _ Hres) as ->.
    now intros [= _ <-].
Qed.

(** C5.  An invocation that fails validation (disabled database
    configuration, a course identifier that does not parse, or no filter)
    ends in the corresponding error and leaves the task queue unchanged. *)
Theorem handle_invalid_queues_nothing (options : Options) (w : World) :
  fails_validation options w ->
  exists e w',
    handle options w = (Err e, w') /\
    queue w' = queue w /\
    (e = CommandError config_disabled_message \/
     e = SystemExit 1 \/
     e = CommandError no_filter_message).
Proof.
  intros [[Hdb Hoff] | (r & w1 & Hres & Hbad)].
  - exists (CommandError config_disabled_message), w.
    split; [|auto].
    apply handle_database_error; [exact Hdb|].
    now apply get_args_from_database_disabled.
  - pose proof (resolve_options_frame _ _ Hres) as ->.
    destruct (existsb (fun s => negb (parseable s))
                (courses_or_empty (courses r))) eqn:Hex.
    + destruct (dispatch_exit r w Hex) as (w' & Hrun & Hq).
      exists (SystemExit 1), w'. split; [|auto].
      rewrite handle_resolve_dispatch. erewrite bind_ok by exact Hres. exact Hrun.
    + destruct Hbad as [Hbad | Hfilter]; [discriminate|].
      exists (CommandError no_filter_message), (logged r w). split; [|auto].
      rewrite handle_resolve_dispatch. erewrite bind_ok by exact Hres.
      apply dispatch_no_filter; [|exact Hfilter].
      rewrite all_or_some_unparseable, Hex. reflexivity.
Qed.

(** C7.  With [--args-from-database] and an enabled record, the options of
    the run are the result of parsing the split of the stored arguments
    string; the rest of [handle] runs on them, and no option given on the
    command line has any influence on the outcome. *)
Theorem handle_uses_database_options (options : Options) (w : World) :
  args_from_database options = true ->
  enabled (config w) = true ->
  get_args_from_database w =
    (match shlex_split (arguments (config w)) with
     | Ok argv => parse_args argv
     | Err e => Err e
     end, w) /\
  handle options w =
    (db <- get_args_from_database ;; r <- auto_window db ;; dispatch r) w /\
  forall options',
    args_from_database options' = true -> handle options' w = handle options w.
Proof.
  intros Hdb Hon.
  assert (Hshape : forall o, args_from_database o = true ->
            handle o w =
            (db <- get_args_from_database ;; r <- auto_window db ;; dispatch r) w).
  { intros o Ho. rewrite handle_resolve_dispatch. unfold resolve_options.
    rewrite Ho. unfold bind.
    destruct (get_args_from_database w) as [[db|e] w1]; [|reflexivity].
    destruct (auto_window db w1) as [[r|e] w2]; reflexivity. }
  split; [|split].
  - unfold get_args_from_database, bind, NotifyCredentialsConfig_current, lift.
    rewrite Hon. simpl.
    destruct (shlex_split (arguments (config w))); reflexivity.
  - apply Hshape, Hdb.
  - intros options' Hdb'. rewrite (Hshape _ Hdb), (Hshape _ Hdb'). reflexivity.
Qed.

(** *** The window of [--auto] *)

(** Adding a [timedelta] moves the wall clock by exactly its length and
    yields a well-formed value in the same time zone. *)
Lemma datetime_add_wall (dt r : datetime) (td : timedelta) :
  datetime_add dt td = Ok r ->
  wall_microseconds r = wall_microseconds dt + timedelta_microseconds td /\
  valid_datetime r /\
  dt_tzinfo r = dt_tzinfo dt.
Proof.
  unfold datetime_add. cbv zeta.
  destruct (_ && _) eqn:Hrange; [|discriminate].
  intros Hr.
  assert (Hproj : forall (f : datetime -> Z) (x y : datetime),
             Ok x = Ok y -> f y = f x) by (intros f x y [= ->]; reflexivity).
  assert (Htz : dt_tzinfo r = dt_tzinfo dt) by (now injection Hr as <-).
  pose proof (Hproj dt_ordinal _ _ Hr) as Hd.
  pose proof (Hproj dt_hour _ _ Hr) as Hh.
  pose proof (Hproj dt_minute _ _ Hr) as Hm.
  pose proof (Hproj dt_second _ _ Hr) as Hs.
  pose proof (Hproj dt_microsecond _ _ Hr) as Hu.
  clear Hr Hproj.
  apply andb_true_iff in Hrange as [Hlo Hhi].
  apply Z.ltb_lt in Hlo. apply Z.leb_le in Hhi.
  unfold wall_microseconds, timedelta_microseconds, valid_datetime, MAXORDINAL.
  rewrite Hd, Hh, Hm, Hs, Hu. clear Hd Hh Hm Hs Hu.
  revert Hlo Hhi.
  unfold timedelta_add, timedelta_new.
  cbn [dt_ordinal dt_hour dt_minute dt_second dt_microsecond
       td_days td_seconds td_microseconds].
  intros Hlo Hhi.
  unfold MAXORDINAL in Hhi.
  assert (Hrange : forall x, 0 < x -> x <= 3652059 -> 1 <= x <= 3652059)
    by (intros; lia).
  split; [|split; [|exact Htz]].
  - clear Hlo Hhi Hrange. Z.div_mod_to_equations.
    repeat match goal with H : _ <> 0 -> _ |- _ => specialize (H ltac:(lia)) end.
    repeat match goal with H : _ -> _ |- _ => clear H end.
    lia.
  - split; [exact (Hrange _ Hlo Hhi)|]. clear Hlo Hhi Hrange.
    repeat split;
      first [ now apply Z.mod_pos_bound
            | apply Z.div_pos; [now apply Z.mod_pos_bound | reflexivity]
            | apply Z.div_lt_upper_bound; [reflexivity|];
              now apply Z.mod_pos_bound ].
Qed.

Lemma four_hours_back (e s : datetime) :
  datetime_sub e (timedelta_new 0 4 0 0 0) = Ok s ->
  wall_microseconds e - wall_microseconds s = 4 * 3600 * 1000000 /\
  valid_datetime s /\
  dt_tzinfo s = dt_tzinfo e.
Proof.
  unfold datetime_sub. intros Hsub.
  apply datetime_add_wall in Hsub as (Hwall & Hvalid & Htz).
  split; [|split; [exact Hvalid | exact Htz]].
  rewrite Hwall.
  change (timedelta_microseconds (timedelta_neg (timedelta_new 0 4 0 0 0)))
    with (- (4 * 3600 * 1000000)).
  ring.
Qed.

Lemma auto_window_inv (o r : Options) (w w1 : World) :
  auto_window o w = (Ok r, w1) ->
  auto r = auto o /\
  if auto o then
    exists s,
      datetime_sub (replace_minute_second_microsecond (clock w) 0 0 0)
        (timedelta_new 0 4 0 0 0) = Ok s /\
      r = set_start_date
            (set_end_date o
               (Some (replace_minute_second_microsecond (clock w) 0 0 0)))
            (Some s)
  else r = o.
Proof.
  unfold auto_window, bind, datetime_now, lift, ret.
  destruct (auto o) eqn:Hauto.
  - destruct (datetime_sub _ _) as [s|e] eqn:Hsub; [|discriminate].
    intros [= <- _]. split; [exact Hauto|]. exists s. split; reflexivity.
  - intros [= <- _]. split; [exact Hauto | reflexivity].
Qed.

Lemma resolve_options_inv (options r : Options) (w w1 : World) :
  resolve_options options w = (Ok r, w1) ->
  exists o,
    (if args_from_database options
     then get_args_from_database w = (Ok o, w)
     else o = options) /\
    auto_window o w = (Ok r, w).
Proof.
  intros Hres. pose proof (resolve_options_frame _ _ Hres) as ->.
  revert Hres. unfold resolve_options, bind.
  destruct (args_from_database options).
  - destruct (get_args_from_database w) as [[db|e] w1] eqn:Hdb; [|discriminate].
    pose proof Hdb as Hframe. apply get_args_from_database_frame in Hframe.
    subst w1. intros Hauto. exists db. split; [reflexivity | exact Hauto].
  - unfold ret. intros Hauto. exists options. split; [reflexivity | exact Hauto].
Qed.

(** C10, as amended.  When the options in force after the
    [--args-from-database] step have [auto] set and resolution succeeds, the
    resolved end date is the clock reading with minute, second and
    microsecond set to zero, the resolved start date lies exactly four hours
    before it, whatever dates the options held before, and the run does not
    end in the no-filter [CommandError]. *)
Theorem auto_sets_four_hour_window (options r : Options) (w w1 : World) :
  resolve_options options w = (Ok r, w1) ->
  auto r = true ->
  exists e s,
    end_date r = Some e /\
    start_date r = Some s /\
    e = replace_minute_second_microsecond (clock w) 0 0 0 /\
    dt_ordinal e = dt_ordinal (clock w) /\ dt_hour e = dt_hour (clock w) /\
    dt_minute e = 0 /\ dt_second e = 0 /\ dt_microsecond e = 0 /\
    datetime_sub e (timedelta_new 0 4 0 0 0) = Ok s /\
    wall_microseconds e - wall_microseconds s = 4 * 3600 * 1000000 /\
    valid_datetime s /\
    fst (handle options w) <> Err (CommandError no_filter_message).
Proof.
  intros Hres Hauto.
  destruct (resolve_options_inv _ _ Hres) as (o & _ & Hwin).
  apply auto_window_inv in Hwin as [Hsame Hwin].
  rewrite Hauto in Hsame. rewrite <- Hsame in Hwin.
  destruct Hwin as (s & Hsub & ->).
  destruct (four_hours_back _ Hsub) as (Hwall & Hvalid & _).
  eexists. exists s.
  do 9 (split; [first [eassumption | reflexivity]|]).
  split; [exact Hwall|]. split; [exact Hvalid|].
  pose proof (resolve_options_frame _ _ Hres) as ->.
  rewrite handle_resolve_dispatch. erewrite bind_ok by exact Hres.
  match goal with |- fst (dispatch ?r w) <> _ => set (res := r) end.
  destruct (forallb parseable (courses_or_empty (courses res))) eqn:Hall.
  - destruct (dispatch_enqueues res w Hall) as (ks & Hrun & _).
    + unfold filter_present, res. simpl.
      destruct (truthy_opt_list (courses o)); reflexivity.
    + rewrite Hrun. discriminate.
  - rewrite all_or_some_unparseable in Hall. apply negb_false_iff in Hall.
    destruct (dispatch_exit res w Hall) as (w' & Hrun & _).
    rewrite Hrun. discriminate.
Qed.

(** *** Forwarding of the options *)

(** C6, as amended.  An invocation without [--args-from-database] that
    dispatches a job forwards every option other than the start and end date
    unmodified, and without [--auto] it forwards the whole dictionary
    unmodified. *)
Theorem handle_forwards_options (options : Options) (w w' : World) :
  args_from_database options = false ->
  handle options w = (Ok tt, w') ->
  exists job,
    queue w' = queue w ++ [job] /\
    set_start_date (set_end_date (job_options job) (end_date options))
      (start_date options) = options /\
    (auto options = false -> job_options job = options).
Proof.
  intros Hcli. rewrite handle_resolve_dispatch. unfold bind at 1.
  destruct (resolve_options options w) as [[r|e] w1] eqn:Hres; [|discriminate].
  destruct (resolve_options_inv _ _ Hres) as (o & Ho & Hwin).
  rewrite Hcli in Ho. subst o.
  pose proof (resolve_options_frame _ _ Hres) as ->.
  apply auto_window_inv in Hwin as [_ Hwin].
  destruct (dispatch_cases r w) as [(ks & Hrun)|(e & w2 & Hrun & _)];
    rewrite Hrun; [|discriminate].
  intros [= <-]. exists (mk_job r ks). split; [reflexivity|]. simpl.
  destruct (auto options).
  - destruct Hwin as (s & _ & ->). split; [|discriminate].
    destruct options; reflexivity.
  - subst r. split; [|reflexivity]. destruct options; reflexivity.
Qed.

(** ** Further properties of the command *)

(** *** Where [get_course_keys] stops *)

Lemma get_course_keys_loop_first_invalid (good rest : list string) (bad : string) :
  forallb parseable good = true ->
  from_string bad = None ->
  forall (acc : list CourseKey) (w : World),
    get_course_keys_loop (good ++ bad :: rest) acc w
    = (Err (SystemExit 1), with_log w (critical_record bad)).
Proof.
  intros Hgood Hbad. induction good as [|s good IH]; intros acc w.
  - simpl. rewrite Hbad. reflexivity.
  - simpl in Hgood. apply andb_true_iff in Hgood as [Hs Hgood].
    unfold parseable in Hs. simpl.
    destruct (from_string s) as [k|]; [|discriminate].
    apply IH. exact Hgood.
Qed.

(** X1.  [get_course_keys] stops at the first identifier that does not parse:
    it has then emitted the course-count record and one CRITICAL record that
    names that identifier, and ends in [sys.exit(1)] whatever follows it in
    the list. *)
Theorem get_course_keys_stops_at_first_invalid
    (good rest : list string) (bad : string) (w : World) :
  forallb parseable good = true ->
  from_string bad = None ->
  get_course_keys (Some (good ++ bad :: rest)) w
  = (Err (SystemExit 1),
     with_log (with_log w (courses_record (good ++ bad :: rest)))
       (critical_record bad)).
Proof.
  intros Hgood Hbad. unfold get_course_keys.
  rewrite courses_or_empty_some.
  unfold bind at 1. unfold log_info, log_emit. fold (courses_record (good ++ bad :: rest)).
  apply get_course_keys_loop_first_invalid; assumption.
Qed.

(** X2.  Whatever its outcome, [get_course_keys] leaves configuration, clock
    and task queue alone and appends the course-count record to the log; a
    return appends nothing else, and the only failure is [sys.exit(1)],
    preceded by one CRITICAL record for an identifier of the list that does
    not parse. *)
Theorem get_course_keys_effects
    (o : option (list string)) (w w' : World) (res : Result (list CourseKey)) :
  get_course_keys o w = (res, w') ->
  config w' = config w /\ clock w' = clock w /\ queue w' = queue w /\
  exists extra,
    logs w' = logs w ++ courses_record (courses_or_empty o) :: extra /\
    match res with
    | Ok ks => extra = [] /\ map Some ks = map from_string (courses_or_empty o)
    | Err e =>
        e = SystemExit 1 /\
        exists bad, extra = [critical_record bad] /\
                    In bad (courses_or_empty o) /\ from_string bad = None
    end.
Proof.
  intros Hrun.
  destruct (forallb parseable (courses_or_empty o)) eqn:Hall.
  - destruct (get_course_keys_ok o w Hall) as (ks & Hok & Hmap).
    rewrite Hok in Hrun. injection Hrun as <- <-.
    repeat (split; [reflexivity|]). exists []. split; [reflexivity|].
    split; [reflexivity | exact Hmap].
  - rewrite all_or_some_unparseable in Hall. apply negb_false_iff in Hall.
    destruct (get_course_keys_exit o w Hall) as (bad & Hin & Hbad & Hexit).
    rewrite Hexit in Hrun. injection Hrun as <- <-.
    repeat (split; [reflexivity|]). exists [critical_record bad]. split.
    + simpl. rewrite <- app_assoc. reflexivity.
    + split; [reflexivity|]. exists bad. auto.
Qed.

(** *** The outcomes of [handle] *)

(** The three ways in which [dispatch] ends. *)
Lemma dispatch_outcome (r : Options) (w w' : World) (res : Result unit) :
  dispatch r w = (res, w') ->
  (res = Ok tt /\ filter_present r = true /\
   forallb parseable (courses_or_empty (courses r)) = true /\
   exists ks, map Some ks = map from_string (courses_or_empty (courses r)) /\
              w' = with_job (logged r w) (mk_job r ks)) \/
  (res = Err (CommandError no_filter_message) /\ filter_present r = false /\
   w' = logged r w) \/
  (res = Err (SystemExit 1) /\
   exists bad, In bad (courses_or_empty (courses r)) /\ from_string bad = None /\
               w' = with_log (logged r w) (critical_record bad)).
Proof.
  intros Hrun.
  destruct (forallb parseable (courses_or_empty (courses r))) eqn:Hall.
  - destruct (filter_present r) eqn:Hfilter.
    + left. destruct (dispatch_enqueues r w Hall Hfilter) as (ks & Hok & Hmap).
      rewrite Hok in Hrun. injection Hrun as <- <-.
      repeat (split; [reflexivity|]). exists ks. split; [exact Hmap | reflexivity].
    + right. left. rewrite (dispatch_no_filter r w Hall Hfilter) in Hrun.
      injection Hrun as <- <-. repeat split.
  - right. right. rewrite all_or_some_unparseable in Hall.
    apply negb_false_iff in Hall.
    destruct (get_course_keys_exit (courses r) (with_log w (start_record r)) Hall)
      as (bad & Hin & Hbad & Hexit).
    assert (Hd : dispatch r w
                 = (Err (SystemExit 1), with_log (logged r w) (critical_record bad))).
    { unfold dispatch. unfold bind at 1. unfold log_info at 1, log_emit at 1.
      fold (start_record r). erewrite bind_err by exact Hexit. reflexivity. }
    rewrite Hd in Hrun. injection Hrun as <- <-.
    split; [reflexivity|]. exists bad. auto.
Qed.

(** [handle] either fails while the options are resolved, with the world
    untouched, or ends as [dispatch] does on the resolved options. *)
Lemma handle_outcome (options : Options) (w w' : World) (res : Result unit) :
  handle options w = (res, w') ->
  (exists e, resolve_options options w = (Err e, w) /\ res = Err e /\ w' = w) \/
  (exists r, resolve_options options w = (Ok r, w) /\ dispatch r w = (res, w')).
Proof.
  rewrite handle_resolve_dispatch. unfold bind at 1.
  destruct (resolve_options options w) as [[r|e] w1] eqn:Hres;
    pose proof (resolve_options_frame _ _ Hres) as ->.
  - intros Hrun. right. exists r. auto.
  - intros [= <- <-]. left. exists e. auto.
Qed.

(** X3.  Whatever its outcome, a run never changes the configuration or the
    clock, only appends to the log (at most three records) and either leaves
    the task queue as it was or appends one job to it. *)
Theorem handle_effects (options : Options) (w w' : World) (res : Result unit) :
  handle options w = (res, w') ->
  config w' = config w /\ clock w' = clock w /\
  (exists extra, logs w' = logs w ++ extra /\ (length extra <= 3)%nat) /\
  (queue w' = queue w \/ exists job, queue w' = queue w ++ [job]).
Proof.
  intros Hrun.
  destruct (handle_outcome _ _ Hrun) as [(e & _ & _ & ->) | (r & _ & Hd)].
  - repeat (split; [reflexivity|]). split.
    + exists []. rewrite app_nil_r. split; [reflexivity | simpl; lia].
    + left. reflexivity.
  - destruct (dispatch_outcome _ _ Hd)
      as [(_ & _ & _ & ks & _ & ->) | [(_ & _ & ->) | (_ & bad & _ & _ & ->)]];
      repeat (split; [reflexivity|]); (split; [|first [left; reflexivity | right; eexists; reflexivity]]).
    + eexists. simpl. rewrite <- app_assoc. split; [reflexivity | simpl; lia].
    + eexists. simpl. rewrite <- app_assoc. split; [reflexivity | simpl; lia].
    + eexists. simpl. rewrite <- !app_assoc. split; [reflexivity | simpl; lia].
Qed.

(** X4.  A run that returns has resolved its options, found every course
    identifier parseable and a filter present, logged the start record and
    the course-count record and appended exactly one job with the resolved
    options and the keys of the identifiers. *)
Theorem handle_returns_only_after_enqueue (options : Options) (w w' : World) :
  handle options w = (Ok tt, w') ->
  exists r ks,
    resolve_options options w = (Ok r, w) /\
    filter_present r = true /\
    forallb parseable (courses_or_empty (courses r)) = true /\
    map Some ks = map from_string (courses_or_empty (courses r)) /\
    w' = with_job (logged r w) (mk_job r ks).
Proof.
  intros Hrun.
  destruct (handle_outcome _ _ Hrun) as [(e & _ & Hres & _) | (r & Hres & Hd)];
    [discriminate|].
  destruct (dispatch_outcome _ _ Hd)
    as [(_ & Hfilter & Hall & ks & Hmap & ->) | [(Hno & _) | (Hno & _)]];
    try discriminate.
  exists r, ks. auto.
Qed.

(** X5.  Once the options are resolved, the run ends in the no-filter
    [CommandError] exactly when line 167 finds nothing truthy: no course
    identifier, no start date, no end date and no user id; an empty list
    counts as nothing. *)
Theorem handle_no_filter_iff (options r : Options) (w w1 : World) :
  resolve_options options w = (Ok r, w1) ->
  fst (handle options w) = Err (CommandError no_filter_message)
  <-> filter_present r = false.
Proof.
  intros Hres. pose proof (resolve_options_frame _ _ Hres) as ->.
  rewrite handle_resolve_dispatch. erewrite bind_ok by exact Hres.
  split.
  - destruct (dispatch r w) as [res w'] eqn:Hd. simpl. intros ->.
    destruct (dispatch_outcome _ _ Hd)
      as [(Hno & _) | [(_ & Hfilter & _) | (Hno & _)]];
      try discriminate. exact Hfilter.
  - intros Hfilter. rewrite dispatch_no_filter; [reflexivity| |exact Hfilter].
    unfold filter_present in Hfilter.
    destruct (truthy_opt_list (courses r)) eqn:Hc; [discriminate|].
    rewrite <- courses_or_empty_truthy in Hc.
    destruct (courses_or_empty (courses r)); [reflexivity | discriminate].
Qed.

(** X6.  An unparseable course identifier ends the run in [sys.exit(1)] even
    when other filters are present: the start record, the course-count
    record and the CRITICAL record for the first such identifier are logged,
    and nothing is queued. *)
Theorem handle_exits_at_first_invalid
    (options r : Options) (w w1 : World) (good rest : list string) (bad : string) :
  resolve_options options w = (Ok r, w1) ->
  courses r = Some (good ++ bad :: rest) ->
  forallb parseable good = true ->
  from_string bad = None ->
  handle options w
  = (Err (SystemExit 1), with_log (logged r w) (critical_record bad)).
Proof.
  intros Hres Hcourses Hgood Hbad.
  pose proof (resolve_options_frame _ _ Hres) as ->.
  rewrite handle_resolve_dispatch. erewrite bind_ok by exact Hres.
  unfold dispatch. unfold bind at 1. unfold log_info at 1, log_emit at 1.
  fold (start_record r). erewrite bind_err; [reflexivity|].
  unfold get_course_keys. rewrite Hcourses, courses_or_empty_some.
  unfold bind at 1. unfold log_info, log_emit.
  fold (courses_record (good ++ bad :: rest)).
  unfold logged. rewrite Hcourses, courses_or_empty_some.
  apply get_course_keys_loop_first_invalid; assumption.
Qed.

(** X7.  With [--args-from-database] and an enabled record, an exception
    raised while the stored arguments are split or parsed is the outcome of
    the run; nothing is logged and nothing is queued. *)
Theorem handle_stored_arguments_error (options : Options) (w : World) (e : Exception) :
  args_from_database options = true ->
  enabled (config w) = true ->
  match shlex_split (arguments (config w)) with
  | Ok argv => parse_args argv
  | Err e' => Err e'
  end = Err e ->
  handle options w = (Err e, w).
Proof.
  intros Hdb Hon Hstored.
  apply handle_database_error; [exact Hdb|].
  unfold get_args_from_database, bind, NotifyCredentialsConfig_current, lift.
  rewrite Hon. simpl.
  destruct (shlex_split (arguments (config w))) as [argv|e'].
  - rewrite Hstored. reflexivity.
  - injection Hstored as ->. reflexivity.
Qed.

(** *** The window of [--auto], explicitly *)

(** Four hours before a full hour: the same day when the hour is at least 4,
    the day before otherwise, provided that day exists. *)
Lemma four_hours_before_hour (ord h : Z) (tz : option tzinfo) :
  0 <= h < 24 ->
  datetime_sub (mk_datetime ord h 0 0 0 tz) (timedelta_new 0 4 0 0 0) =
  let d := if 4 <=? h then ord else ord - 1 in
  if (0 <? d) && (d <=? MAXORDINAL)
  then Ok (mk_datetime d (if 4 <=? h then h - 4 else h + 20) 0 0 0 tz)
  else Err (OverflowError "result out of range").
Proof.
  intros Hh.
  unfold datetime_sub, datetime_add.
  change (timedelta_neg (timedelta_new 0 4 0 0 0)) with (mk_timedelta (-1) 72000 0).
  unfold timedelta_add, timedelta_new.
  cbn [dt_ordinal dt_hour dt_minute dt_second dt_microsecond dt_tzinfo
       td_days td_seconds td_microseconds].
  change (0 / 1000000) with 0. change (0 mod 1000000) with 0.
  replace (0 + 60 * 0 + 3600 * h + 0) with (3600 * h) by ring.
  assert (H1 : (3600 * h) / 86400 = 0) by (apply Z.div_small; lia).
  assert (H2 : (3600 * h) mod 86400 = 3600 * h) by (apply Z.mod_small; lia).
  rewrite H1, H2.
  change ((0 + 0) / 1000000) with 0. change ((0 + 0) mod 1000000) with 0.
  replace (3600 * h + 72000 + 60 * 0 + 3600 * 0 + 0) with (3600 * (h + 20)) by ring.
  destruct (4 <=? h) eqn:H4.
  - apply Z.leb_le in H4.
    assert (Hq : 3600 * (h + 20) / 86400 = 1)
      by (symmetry; apply (Z.div_unique _ _ 1 (3600 * (h - 4))); lia).
    assert (Hr : (3600 * (h + 20)) mod 86400 = 3600 * (h - 4))
      by (symmetry; apply (Z.mod_unique _ _ 1 (3600 * (h - 4))); lia).
    rewrite Hq, Hr.
    replace (ord + 0 + -1 + 1) with ord by ring.
    rewrite (Z.mul_comm 3600 (h - 4)), Z.div_mul, Z.mod_mul by discriminate.
    reflexivity.
  - apply Z.leb_gt in H4.
    assert (Hq : 3600 * (h + 20) / 86400 = 0) by (apply Z.div_small; lia).
    assert (Hr : (3600 * (h + 20)) mod 86400 = 3600 * (h + 20))
      by (apply Z.mod_small; lia).
    rewrite Hq, Hr.
    replace (ord + 0 + -1 + 0) with (ord - 1) by ring.
    rewrite (Z.mul_comm 3600 (h + 20)), Z.div_mul, Z.mod_mul by discriminate.
    reflexivity.
Qed.

Lemma auto_window_at_clock (o : Options) (w : World) :
  auto o = true ->
  auto_window o w =
  match datetime_sub (mk_datetime (dt_ordinal (clock w)) (dt_hour (clock w)) 0 0 0
                        (dt_tzinfo (clock w))) (timedelta_new 0 4 0 0 0) with
  | Ok start =>
      (Ok (set_start_date
             (set_end_date o
                (Some (mk_datetime (dt_ordinal (clock w)) (dt_hour (clock w)) 0 0 0
                         (dt_tzinfo (clock w)))))
             (Some start)), w)
  | Err e => (Err e, w)
  end.
Proof.
  intros Hauto. unfold auto_window. rewrite Hauto.
  unfold bind, datetime_now, lift, ret, replace_minute_second_microsecond.
  destruct (datetime_sub _ _); reflexivity.
Qed.

(** X8.  With [--auto] on the command line, a clock that reads hour [h] of
    day [d] (and is not within the first four hours of the first
    representable day) gives the end date [d] at [h]:00:00 and the start date
    [d] at [h-4]:00:00 when [h] is at least 4, and the day before at
    [h+20]:00:00 otherwise; both keep the clock's time zone. *)
Theorem auto_window_of_clock (options : Options) (w : World) :
  args_from_database options = false ->
  auto options = true ->
  0 <= dt_hour (clock w) < 24 ->
  1 <= dt_ordinal (clock w) <= MAXORDINAL ->
  1 < dt_ordinal (clock w) \/ 4 <= dt_hour (clock w) ->
  resolve_options options w =
  (Ok (set_start_date
         (set_end_date options
            (Some (mk_datetime (dt_ordinal (clock w)) (dt_hour (clock w)) 0 0 0
                     (dt_tzinfo (clock w)))))
         (Some (mk_datetime
                  (if 4 <=? dt_hour (clock w)
                   then dt_ordinal (clock w) else dt_ordinal (clock w) - 1)
                  (if 4 <=? dt_hour (clock w)
                   then dt_hour (clock w) - 4 else dt_hour (clock w) + 20)
                  0 0 0 (dt_tzinfo (clock w))))), w).
Proof.
  intros Hcli Hauto Hh Hd Hfirst.
  unfold resolve_options. rewrite Hcli. unfold bind at 1, ret at 1.
  rewrite (auto_window_at_clock _ _ Hauto), (four_hours_before_hour _ _ Hh).
  cbv zeta. unfold MAXORDINAL in *.
  destruct (4 <=? dt_hour (clock w)) eqn:H4.
  - replace ((0 <? dt_ordinal (clock w)) && (dt_ordinal (clock w) <=? 3652059))
      with true; [reflexivity|].
    symmetry. apply andb_true_iff. split; [apply Z.ltb_lt | apply Z.leb_le]; lia.
  - apply Z.leb_gt in H4.
    replace ((0 <? dt_ordinal (clock w) - 1)
             && (dt_ordinal (clock w) - 1 <=? 3652059))
      with true; [reflexivity|].
    symmetry. apply andb_true_iff. split; [apply Z.ltb_lt | apply Z.leb_le]; lia.
Qed.


(** X10.  With a well-formed clock reading, the end date that [--auto]
    resolves to is well formed, falls on a full hour, is never later than the
    clock and lies less than one hour before it. *)
Theorem auto_end_date_within_the_hour (options r : Options) (w w1 : World) :
  resolve_options options w = (Ok r, w1) ->
  auto r = true ->
  valid_datetime (clock w) ->
  exists e,
    end_date r = Some e /\
    valid_datetime e /\
    0 <= wall_microseconds (clock w) - wall_microseconds e < 3600 * 1000000 /\
    wall_microseconds e mod (3600 * 1000000) = 0.
Proof.
  intros Hres Hauto Hvalid.
  destruct (resolve_options_inv _ _ Hres) as (o & _ & Hwin).
  apply auto_window_inv in Hwin as [Hsame Hwin].
  rewrite Hauto in Hsame. rewrite <- Hsame in Hwin.
  destruct Hwin as (s & _ & ->).
  exists (replace_minute_second_microsecond (clock w) 0 0 0).
  split; [reflexivity|].
  unfold valid_datetime, wall_microseconds, replace_minute_second_microsecond in *.
  cbn [dt_ordinal dt_hour dt_minute dt_second dt_microsecond].
  destruct Hvalid as (Hd & Hh & Hm & Hs & Hu).
  split; [|split].
  - repeat split; first [apply Hd | apply Hh | lia].
  - lia.
  - replace ((((dt_ordinal (clock w) * 24 + dt_hour (clock w)) * 60 + 0) * 60 + 0)
             * 1000000 + 0)
      with ((dt_ordinal (clock w) * 24 + dt_hour (clock w)) * (3600 * 1000000))
      by ring.
    apply Z.mod_mul. discriminate.
Qed.

(** X11.  The two dates that [--auto] resolves to carry the time zone of the
    clock reading: with the naive reading that [datetime.now()] returns they
    are naive, whatever start or end date the options held before. *)
Theorem auto_window_keeps_clock_tzinfo (options r : Options) (w w1 : World) :
  resolve_options options w = (Ok r, w1) ->
  auto r = true ->
  exists e s,
    end_date r = Some e /\
    start_date r = Some s /\
    dt_tzinfo e = dt_tzinfo (clock w) /\
    dt_tzinfo s = dt_tzinfo (clock w) /\
    (dt_tzinfo (clock w) = None -> aware e = false /\ aware s = false).
Proof.
  intros Hres Hauto.
  destruct (resolve_options_inv _ _ Hres) as (o & _ & Hwin).
  apply auto_window_inv in Hwin as [Hsame Hwin].
  rewrite Hauto in Hsame. rewrite <- Hsame in Hwin.
  destruct Hwin as (s & Hsub & ->).
  destruct (four_hours_back _ Hsub) as (_ & _ & Htz).
  exists (replace_minute_second_microsecond (clock w) 0 0 0), s.
  split; [reflexivity|]. split; [reflexivity|]. split; [reflexivity|].
  split; [exact Htz|].
  intros Hnaive. unfold aware. rewrite Htz. simpl. rewrite Hnaive. auto.
Qed.

End CommandProperties.

(** * Concrete runs

    The results above applied to invocations of the command with the
    stand-in collaborators. *)

Import Standin.

(** [parsetime] on the date of the module's usage example. *)
Lemma parsetime_returns_aware_witness :
  dateutil_parse "2018-06-01" = Ok june_first_naive /\
  exists dt',
    parsetime "2018-06-01" = Ok dt' /\
    aware dt' = true /\
    (dt_tzinfo june_first_naive = None ->
     dt' = replace_tzinfo june_first_naive (Some UTC)) /\
    (forall tz, dt_tzinfo june_first_naive = Some tz -> dt' = june_first_naive) /\
    replace_tzinfo dt' None = replace_tzinfo june_first_naive None.
Proof.
  split; [reflexivity|].
  apply (parsetime_returns_aware "2018-06-01"). reflexivity.
Defined.

(** Two identifiers that parse. *)
Lemma get_course_keys_maps_from_string_witness :
  forallb parseable [demo_course; "course-v1:edX+RecordsSelfPaced+1"] = true /\
  (exists ks w',
     get_course_keys (Some [demo_course; "course-v1:edX+RecordsSelfPaced+1"])
       disabled_world = (Ok ks, w') /\
     length ks = length [demo_course; "course-v1:edX+RecordsSelfPaced+1"] /\
     (forall i, option_map Some (nth_error ks i)
                = option_map from_string
                    (nth_error [demo_course; "course-v1:edX+RecordsSelfPaced+1"] i))) /\
  fst (get_course_keys None disabled_world) = Ok [] /\
  fst (get_course_keys (Some []) disabled_world) = Ok [].
Proof.
  split; [reflexivity|].
  apply (get_course_keys_maps_from_string
           [demo_course; "course-v1:edX+RecordsSelfPaced+1"] disabled_world).
  reflexivity.
Defined.

(** An identifier that does not parse after one that does. *)
Lemma get_course_keys_invalid_exits_witness :
  existsb (fun s => negb (parseable s)) [demo_course; "edX-DemoX"] = true /\
  exists bad w',
    get_course_keys (Some [demo_course; "edX-DemoX"]) disabled_world
      = (Err (SystemExit 1), w') /\
    In bad [demo_course; "edX-DemoX"] /\ from_string bad = None /\
    last (logs w') (mk_log INFO EmptyString []) =
      mk_log CRITICAL "%s is not a parseable CourseKey" [VStr bad] /\
    queue w' = queue disabled_world.
Proof.
  split; [reflexivity|].
  apply (get_course_keys_invalid_exits [demo_course; "edX-DemoX"] disabled_world).
  reflexivity.
Defined.

Example unsplittable_arguments :
  shlex_split (arguments (config disabled_unsplittable_world))
  = Err (ValueError "No closing quotation").
Proof. reflexivity. Qed.

(** A disabled record; its stored arguments could not even be split. *)
Lemma handle_disabled_config_raises_witness :
  args_from_database (cli ["--args-from-database"; "--courses"; demo_course]) = true /\
  enabled (config disabled_unsplittable_world) = false /\
  get_args_from_database disabled_unsplittable_world
    = (Err (CommandError config_disabled_message), disabled_unsplittable_world) /\
  handle (cli ["--args-from-database"; "--courses"; demo_course])
      disabled_unsplittable_world
    = (Err (CommandError config_disabled_message), disabled_unsplittable_world).
Proof.
  split; [reflexivity|]. split; [reflexivity|].
  apply handle_disabled_config_raises; reflexivity.
Defined.

(** [--dry-run] alone names no filter. *)
Lemma handle_no_filter_raises_witness :
  resolve_options (cli ["--dry-run"]) disabled_world
    = (Ok (cli ["--dry-run"]), disabled_world) /\
  fst (get_course_keys (courses (cli ["--dry-run"])) disabled_world) = Ok [] /\
  start_date (cli ["--dry-run"]) = None /\
  end_date (cli ["--dry-run"]) = None /\
  user_ids (cli ["--dry-run"]) = None /\
  exists w',
    handle (cli ["--dry-run"]) disabled_world
      = (Err (CommandError no_filter_message), w') /\
    queue w' = queue disabled_world.
Proof.
  do 5 (split; [reflexivity|]).
  apply (handle_no_filter_raises (cli ["--dry-run"]) (r := cli ["--dry-run"])
           disabled_world (w1 := disabled_world)); reflexivity.
Defined.

(** [--courses] with the demo course. *)
Lemma handle_enqueues_one_job_witness :
  resolve_options (cli ["--courses"; demo_course]) disabled_world
    = (Ok (cli ["--courses"; demo_course]), disabled_world) /\
  forallb parseable (courses_or_empty (courses (cli ["--courses"; demo_course])))
    = true /\
  filter_present (cli ["--courses"; demo_course]) = true /\
  exists course_keys w',
    handle (cli ["--courses"; demo_course]) disabled_world = (Ok tt, w') /\
    queue w' = queue disabled_world
               ++ [mk_job (cli ["--courses"; demo_course]) course_keys] /\
    fst (get_course_keys (courses (cli ["--courses"; demo_course])) disabled_world)
      = Ok course_keys /\
    map Some course_keys
      = map from_string (courses_or_empty (courses (cli ["--courses"; demo_course]))).
Proof.
  do 3 (split; [reflexivity|]).
  apply (handle_enqueues_one_job (cli ["--courses"; demo_course])
           (r := cli ["--courses"; demo_course])
           disabled_world (w1 := disabled_world)); reflexivity.
Defined.

(** A run that fails validation on its second course identifier. *)
Lemma handle_invalid_queues_nothing_witness :
  fails_validation (cli ["--courses"; demo_course; "edX-DemoX"]) disabled_world /\
  exists e w',
    handle (cli ["--courses"; demo_course; "edX-DemoX"]) disabled_world = (Err e, w') /\
    queue w' = queue disabled_world /\
    (e = CommandError config_disabled_message \/
     e = SystemExit 1 \/
     e = CommandError no_filter_message).
Proof.
  assert (Hfails : fails_validation (cli ["--courses"; demo_course; "edX-DemoX"])
                     disabled_world).
  { right. exists (cli ["--courses"; demo_course; "edX-DemoX"]), disabled_world.
    split; [reflexivity | left; reflexivity]. }
  split; [exact Hfails|].
  apply handle_invalid_queues_nothing. exact Hfails.
Defined.

(** Options taken from an enabled record. *)
Lemma handle_uses_database_options_witness :
  args_from_database (cli ["--args-from-database"; "--dry-run"]) = true /\
  enabled (config (enabled_world ("--courses " ++ demo_course))) = true /\
  get_args_from_database (enabled_world ("--courses " ++ demo_course)) =
    (match shlex_split (arguments (config (enabled_world ("--courses " ++ demo_course)))) with
     | Ok argv => parse_args argv
     | Err e => Err e
     end, enabled_world ("--courses " ++ demo_course)) /\
  handle (cli ["--args-from-database"; "--dry-run"])
      (enabled_world ("--courses " ++ demo_course)) =
    bind get_args_from_database
      (fun db => bind (auto_window db) (fun r => dispatch r))
      (enabled_world ("--courses " ++ demo_course)) /\
  forall options',
    args_from_database options' = true ->
    handle options' (enabled_world ("--courses " ++ demo_course))
    = handle (cli ["--args-from-database"; "--dry-run"])
        (enabled_world ("--courses " ++ demo_course)).
Proof.
  split; [reflexivity|]. split; [reflexivity|].
  apply handle_uses_database_options; reflexivity.
Defined.

(** A manual run with a start date and a site. *)
Lemma handle_forwards_options_witness :
  args_from_database (cli ["--start-date"; "2018-06-01"; "--site"; "example.com"])
    = false /\
  handle (cli ["--start-date"; "2018-06-01"; "--site"; "example.com"]) disabled_world
    = (Ok tt,
       with_job (logged (cli ["--start-date"; "2018-06-01"; "--site"; "example.com"])
                   disabled_world)
         (mk_job (cli ["--start-date"; "2018-06-01"; "--site"; "example.com"]) [])) /\
  exists job,
    queue (with_job (logged (cli ["--start-date"; "2018-06-01"; "--site"; "example.com"])
                       disabled_world)
             (mk_job (cli ["--start-date"; "2018-06-01"; "--site"; "example.com"]) []))
      = queue disabled_world ++ [job] /\
    set_start_date
      (set_end_date (job_options job)
         (end_date (cli ["--start-date"; "2018-06-01"; "--site"; "example.com"])))
      (start_date (cli ["--start-date"; "2018-06-01"; "--site"; "example.com"]))
      = cli ["--start-date"; "2018-06-01"; "--site"; "example.com"] /\
    (auto (cli ["--start-date"; "2018-06-01"; "--site"; "example.com"]) = false ->
     job_options job = cli ["--start-date"; "2018-06-01"; "--site"; "example.com"]).
Proof.
  split; [reflexivity|]. split; [reflexivity|].
  apply (handle_forwards_options
           (cli ["--start-date"; "2018-06-01"; "--site"; "example.com"])
           disabled_world); reflexivity.
Defined.

(** C6, the claim as stated fails: with [--auto] the start date given on the
    command line is not the one that reaches the task. *)
Lemma forwarded_verbatim_fails_with_auto :
  start_date (cli ["--auto"; "--start-date"; "2018-06-01"]) = Some june_first /\
  exists job w',
    handle (cli ["--auto"; "--start-date"; "2018-06-01"]) disabled_world = (Ok tt, w') /\
    queue w' = [job] /\
    start_date (job_options job) = Some (mk_datetime 738960 6 0 0 0 None) /\
    job_options job <> cli ["--auto"; "--start-date"; "2018-06-01"].
Proof.
  split; [reflexivity|].
  eexists. eexists. split; [reflexivity|]. split; [reflexivity|].
  split; [reflexivity|]. discriminate.
Qed.

(** A periodic run at 10:37: the window is 06:00 to 10:00, and the end date
    of the command line is gone. *)
Lemma auto_sets_four_hour_window_witness :
  resolve_options periodic disabled_world = (Ok periodic_resolved, disabled_world) /\
  auto periodic_resolved = true /\
  exists e s,
    end_date periodic_resolved = Some e /\
    start_date periodic_resolved = Some s /\
    e = replace_minute_second_microsecond (clock disabled_world) 0 0 0 /\
    dt_ordinal e = dt_ordinal (clock disabled_world) /\
    dt_hour e = dt_hour (clock disabled_world) /\
    dt_minute e = 0 /\ dt_second e = 0 /\ dt_microsecond e = 0 /\
    datetime_sub e (timedelta_new 0 4 0 0 0) = Ok s /\
    wall_microseconds e - wall_microseconds s = 4 * 3600 * 1000000 /\
    valid_datetime s /\
    fst (handle periodic disabled_world) <> Err (CommandError no_filter_message).
Proof.
  split; [reflexivity|]. split; [reflexivity|].
  apply (auto_sets_four_hour_window periodic (r := periodic_resolved)
           disabled_world (w1 := disabled_world)); reflexivity.
Defined.

(** C10, the claim as stated fails: [--auto] given together with
    [--args-from-database] is discarded with the rest of the command line;
    when the stored arguments hold no filter the run ends in the no-filter
    error. *)
Lemma auto_flag_discarded_with_database :
  auto (cli ["--auto"; "--args-from-database"]) = true /\
  resolve_options (cli ["--auto"; "--args-from-database"]) (enabled_world EmptyString)
    = (Ok default_options, enabled_world EmptyString) /\
  end_date default_options = None /\
  handle (cli ["--auto"; "--args-from-database"]) (enabled_world EmptyString)
    = (Err (CommandError no_filter_message),
       logged default_options (enabled_world EmptyString)).
Proof. repeat split. Qed.

(** ** Runs for the further properties *)

(** The second of four identifiers does not parse; the fourth is not looked at. *)
Lemma get_course_keys_stops_at_first_invalid_witness :
  forallb parseable [demo_course] = true /\
  from_string "edX-DemoX" = None /\
  get_course_keys (Some ([demo_course] ++ "edX-DemoX" :: [demo_course; "edX/DemoX"]))
    disabled_world
  = (Err (SystemExit 1),
     with_log
       (with_log disabled_world
          (courses_record ([demo_course] ++ "edX-DemoX" :: [demo_course; "edX/DemoX"])))
       (critical_record "edX-DemoX")).
Proof.
  split; [reflexivity|]. split; [reflexivity|].
  apply get_course_keys_stops_at_first_invalid; reflexivity.
Defined.

(** One identifier that parses. *)
Lemma get_course_keys_effects_witness :
  get_course_keys (Some [demo_course]) disabled_world
  = (Ok [("edX", "DemoX", "Demo_Course")],
     with_log disabled_world (courses_record [demo_course])) /\
  config (with_log disabled_world (courses_record [demo_course]))
    = config disabled_world /\
  clock (with_log disabled_world (courses_record [demo_course]))
    = clock disabled_world /\
  queue (with_log disabled_world (courses_record [demo_course]))
    = queue disabled_world /\
  exists extra,
    logs (with_log disabled_world (courses_record [demo_course]))
    = logs disabled_world
      ++ courses_record (courses_or_empty (Some [demo_course])) :: extra /\
    extra = [] /\
    map Some [("edX", "DemoX", "Demo_Course")]
    = map from_string (courses_or_empty (Some [demo_course])).
Proof.
  split; [reflexivity|].
  apply (get_course_keys_effects (Some [demo_course]) disabled_world
           (res := Ok [("edX", "DemoX", "Demo_Course")])).
  reflexivity.
Defined.

(** The run for the demo course. *)
Lemma handle_effects_witness :
  handle demo_run disabled_world = (Ok tt, demo_done) /\
  config demo_done = config disabled_world /\
  clock demo_done = clock disabled_world /\
  (exists extra,
     logs demo_done = logs disabled_world ++ extra /\ (length extra <= 3)%nat) /\
  (queue demo_done = queue disabled_world \/
   exists job, queue demo_done = queue disabled_world ++ [job]).
Proof.
  split; [reflexivity|].
  apply (handle_effects demo_run disabled_world (res := Ok tt)). reflexivity.
Defined.

Lemma handle_returns_only_after_enqueue_witness :
  handle demo_run disabled_world = (Ok tt, demo_done) /\
  exists r ks,
    resolve_options demo_run disabled_world = (Ok r, disabled_world) /\
    filter_present r = true /\
    forallb parseable (courses_or_empty (courses r)) = true /\
    map Some ks = map from_string (courses_or_empty (courses r)) /\
    demo_done = with_job (logged r disabled_world) (mk_job r ks).
Proof.
  split; [reflexivity|].
  apply handle_returns_only_after_enqueue. reflexivity.
Defined.

(** An empty list of user ids is no filter. *)
Lemma handle_no_filter_iff_witness :
  resolve_options empty_user_ids disabled_world = (Ok empty_user_ids, disabled_world) /\
  (fst (handle empty_user_ids disabled_world) = Err (CommandError no_filter_message)
   <-> filter_present empty_user_ids = false).
Proof.
  split; [reflexivity|].
  apply (handle_no_filter_iff empty_user_ids (r := empty_user_ids)
           disabled_world (w1 := disabled_world)).
  reflexivity.
Defined.

(** A start date is given, but the second course identifier does not parse. *)
Lemma handle_exits_at_first_invalid_witness :
  resolve_options mixed_courses disabled_world = (Ok mixed_courses, disabled_world) /\
  courses mixed_courses
  = Some ([demo_course] ++ "edX-DemoX" :: ["course-v1:edX+RecordsSelfPaced+1"]) /\
  forallb parseable [demo_course] = true /\
  from_string "edX-DemoX" = None /\
  handle mixed_courses disabled_world
  = (Err (SystemExit 1),
     with_log (logged mixed_courses disabled_world) (critical_record "edX-DemoX")).
Proof.
  do 4 (split; [reflexivity|]).
  apply (handle_exits_at_first_invalid mixed_courses (r := mixed_courses)
           disabled_world (w1 := disabled_world) [demo_course]
           ["course-v1:edX+RecordsSelfPaced+1"] "edX-DemoX"); reflexivity.
Defined.

(** Stored arguments that cannot be split. *)
Lemma handle_stored_arguments_error_witness :
  args_from_database (cli ["--args-from-database"]) = true /\
  enabled (config enabled_unsplittable_world) = true /\
  match shlex_split (arguments (config enabled_unsplittable_world)) with
  | Ok argv => parse_args argv
  | Err e' => Err e'
  end = Err (ValueError "No closing quotation") /\
  handle (cli ["--args-from-database"]) enabled_unsplittable_world
  = (Err (ValueError "No closing quotation"), enabled_unsplittable_world).
Proof.
  do 3 (split; [reflexivity|]).
  apply handle_stored_arguments_error; reflexivity.
Defined.

(** The periodic run at 10:37. *)
Lemma auto_window_of_clock_witness :
  args_from_database periodic = false /\
  auto periodic = true /\
  0 <= dt_hour (clock disabled_world) < 24 /\
  1 <= dt_ordinal (clock disabled_world) <= MAXORDINAL /\
  (1 < dt_ordinal (clock disabled_world) \/ 4 <= dt_hour (clock disabled_world)) /\
  resolve_options periodic disabled_world = (Ok periodic_resolved, disabled_world).
Proof.
  assert (Hh : 0 <= dt_hour (clock disabled_world) < 24) by (simpl; lia).
  assert (Hd : 1 <= dt_ordinal (clock disabled_world) <= MAXORDINAL)
    by (unfold MAXORDINAL; simpl; lia).
  assert (Hf : 1 < dt_ordinal (clock disabled_world)
               \/ 4 <= dt_hour (clock disabled_world)) by (simpl; lia).
  split; [reflexivity|]. split; [reflexivity|].
  split; [exact Hh|]. split; [exact Hd|]. split; [exact Hf|].
  exact (auto_window_of_clock periodic disabled_world eq_refl eq_refl Hh Hd Hf).
Defined.


Lemma auto_end_date_within_the_hour_witness :
  resolve_options periodic disabled_world = (Ok periodic_resolved, disabled_world) /\
  auto periodic_resolved = true /\
  valid_datetime (clock disabled_world) /\
  exists e,
    end_date periodic_resolved = Some e /\
    valid_datetime e /\
    0 <= wall_microseconds (clock disabled_world) - wall_microseconds e
      < 3600 * 1000000 /\
    wall_microseconds e mod (3600 * 1000000) = 0.
Proof.
  assert (Hvalid : valid_datetime (clock disabled_world))
    by (unfold valid_datetime, MAXORDINAL; simpl; lia).
  split; [reflexivity|]. split; [reflexivity|]. split; [exact Hvalid|].
  exact (auto_end_date_within_the_hour periodic (r := periodic_resolved)
           disabled_world (w1 := disabled_world) eq_refl eq_refl Hvalid).
Defined.

Lemma auto_window_keeps_clock_tzinfo_witness :
  resolve_options periodic disabled_world = (Ok periodic_resolved, disabled_world) /\
  auto periodic_resolved = true /\
  exists e s,
    end_date periodic_resolved = Some e /\
    start_date periodic_resolved = Some s /\
    dt_tzinfo e = dt_tzinfo (clock disabled_world) /\
    dt_tzinfo s = dt_tzinfo (clock disabled_world) /\
    (dt_tzinfo (clock disabled_world) = None -> aware e = false /\ aware s = false).
Proof.
  split; [reflexivity|]. split; [reflexivity|].
  apply (auto_window_keeps_clock_tzinfo periodic (r := periodic_resolved)
           disabled_world (w1 := disabled_world)); reflexivity.
Defined.
